(** * OllamaAssist Telegram bot (tgbot): session store, API client, handlers

    A shallow embedding of the Go packages [conversation], [api], [config],
    [handlers] and of the update loop of [main], followed by the properties
    of the relay that are proved about them.

    Conventions of the embedding.
    - Go [string] is a byte sequence: Rocq [string].
    - Go [int64] and [int] values are [Z]; the program performs no
      arithmetic on them, so no wrap-around is involved.
    - A Go pointer that may be [nil] is an [option]; the program never
      writes through a [*UserSession] after storing it, so a stored pointer
      is represented by the value it points to.
    - A [(T, error)] result is a [result T].
    - A method with a pointer receiver that mutates its receiver returns the
      new receiver; network effects are threaded through a [Net] value that
      also records every HTTP exchange that was started.
    - The mutex of [conversation.Manager] is not represented: the update
      loop of [main] handles one update at a time. *)

From Stdlib Require Import ZArith String Ascii List Lia.
From stdpp Require Import base option gmap strings list pretty.
Import ListNotations.

Local Open Scope Z_scope.
Local Open Scope string_scope.

(** ** What the program takes from outside the repository *)

(** Types owned by the Go standard library or by the network. *)
Class Foreign := {
  (** everything outside the process: the backend and the wire to it *)
  World : Type;
  (** [time.Time] *)
  Time : Type;
  (** [io.ReadCloser], the stream behind [http.Response.Body] *)
  ReadCloser : Type;
  (** a decoded [map[string]interface{}] *)
  ToolMap : Type
}.

(** The message of an [error] value produced by a library call. *)
Definition ext_error := string.

(** Package net/http, as far as the client uses it. *)
Module http.

(** [http.Client{Timeout: ...}]; the duration is in nanoseconds. *)
Record Client := {
  Timeout : Z
}.

Definition StatusOK : Z := 200.

Section WithForeign.
Context {F : Foreign}.

Record Response := {
  StatusCode : Z;
  Body : ReadCloser
}.

(** One HTTP exchange started by the process. *)
Inductive Call :=
| POST (url contentType body : string)
| GET (url : string).

(** The outside world together with the exchanges started so far. *)
Record Net := {
  world : World;
  calls : list Call
}.

End WithForeign.
End http.

(** Package github.com/go-telegram-bot-api/telegram-bot-api/v5: the
    pre-parsed event model.  [From] is taken to be present: the handlers
    dereference [msg.From] without a check. *)
Module tgbotapi.

Record User := {
  ID : Z
}.

Record Chat := {
  Chat_ID : Z
}.

Record MessageEntity := {
  Type_ : string;
  Offset : Z;
  Length : Z
}.

Record Message := {
  MessageID : Z;
  From : User;
  Chat_ : Chat;
  Text : string;
  Entities : list MessageEntity
}.

(** [tgbotapi.Update]; [Message] is a pointer that may be [nil]. *)
Record Update := {
  UpdateID : Z;
  Update_Message : option Message
}.

Module MessageConfig.
Record t := {
  ChatID : Z;
  Text : string;
  ReplyToMessageID : Z
}.
End MessageConfig.

(** [tgbotapi.NewMessage(chatID, text)] *)
Definition NewMessage (chatID : Z) (text : string) : MessageConfig.t :=
  {| MessageConfig.ChatID := chatID;
     MessageConfig.Text := text;
     MessageConfig.ReplyToMessageID := 0 |}.

End tgbotapi.

(** Library functions whose results the program consumes as given. *)
Class Platform {F : Foreign} := {
  (** [httpClient.Post(url, contentType, body)] *)
  http_Post : http.Client -> string -> string -> string -> World ->
              (ext_error + http.Response) * World;
  (** [httpClient.Get(url)] *)
  http_Get : http.Client -> string -> World ->
             (ext_error + http.Response) * World;
  (** [t.Format(layout)] *)
  time_Format : Time -> string -> string;
  (** [fmt.Sprintf("%+v", m)] on a tool map *)
  fmt_plus_v : ToolMap -> string;
  (** [strings.Fields] *)
  strings_Fields : string -> list string;
  (** the methods [IsCommand], [Command] and [CommandArguments] of
      [tgbotapi.Message] *)
  IsCommand : tgbotapi.Message -> bool;
  Command : tgbotapi.Message -> string;
  CommandArguments : tgbotapi.Message -> string;
  (** [tgbotapi.NewBotAPI(token)]: the error, if any *)
  NewBotAPI : string -> World -> option ext_error * World
}.

(** [strconv.FormatInt(i, 10)] *)
Definition FormatInt10 (i : Z) : string := pretty i.

(** [strconv.Atoi] on a platform whose [int] has 64 bits: an optional sign
    followed by one or more decimal digits, within the range of [int]. *)
Definition digit (c : ascii) : option Z :=
  let n := Z.of_nat (nat_of_ascii c) in
  if ((48 <=? n) && (n <=? 57))%Z then Some (n - 48) else None.

Fixpoint digits (s : string) (acc : Z) : option Z :=
  match s with
  | EmptyString => Some acc
  | String c rest =>
      match digit c with
      | Some d => digits rest (10 * acc + d)
      | None => None
      end
  end.

Definition Atoi (s : string) : option Z :=
  let '(neg, body) :=
    match s with
    | String "-" rest => (true, rest)
    | String "+" rest => (false, rest)
    | _ => (false, s)
    end in
  match body with
  | EmptyString => None
  | _ =>
      match digits body 0 with
      | Some v =>
          let i := if neg then - v else v in
          if ((- 2 ^ 63 <=? i) && (i <=? 2 ^ 63 - 1))%Z then Some i else None
      | None => None
      end
  end.

(** The process environment; [os.Getenv] yields the empty string for a
    variable that is not set. *)
Definition Getenv (env : gmap string string) (key : string) : string :=
  match env !! key with
  | Some v => v
  | None => ""
  end.

(** ** Package conversation *)

Module conversation.

(** [type UserSession struct { UserID string; ConversationID string }] *)
Record UserSession := {
  UserID : string;
  ConversationID : string
}.

(** [type Manager struct { sessions map[int64]*UserSession; mu sync.RWMutex }] *)
Record Manager := {
  sessions : gmap Z (option UserSession)
}.

Definition NewManager : Manager :=
  {| sessions := ∅ |}.

(** [m.sessions[telegramUserID] = &UserSession{ConversationID: conversationID}] *)
Definition StartConversation (m : Manager) (telegramUserID : Z)
    (conversationID : string) : Manager :=
  {| sessions :=
       <[telegramUserID :=
           Some {| UserID := ""; ConversationID := conversationID |}]>
         (sessions m) |}.

(** [return m.sessions[telegramUserID]]: indexing a Go map at a missing key
    yields the zero value of the element type, here the [nil] pointer. *)
Definition GetSession (m : Manager) (telegramUserID : Z)
    : option UserSession :=
  match sessions m !! telegramUserID with
  | Some p => p
  | None => None
  end.

(** [delete(m.sessions, telegramUserID)] *)
Definition ClearSession (m : Manager) (telegramUserID : Z) : Manager :=
  {| sessions := delete telegramUserID (sessions m) |}.

(** [m.sessions[telegramUserID] = session] *)
Definition UpdateSession (m : Manager) (telegramUserID : Z)
    (session : option UserSession) : Manager :=
  {| sessions := <[telegramUserID := session]> (sessions m) |}.

(** The conversation identity a reader sees for a user: the empty string
    when there is no session. *)
Definition conversationOf (m : Manager) (u : Z) : string :=
  match GetSession m u with
  | Some s => ConversationID s
  | None => ""
  end.

End conversation.

(** ** Package api *)

Module api.

(** [type Client struct { baseURL string; httpClient *http.Client }] *)
Record Client := {
  baseURL : string;
  httpClient : http.Client
}.

Module ChatRequest.
Record t := {
  Input : string;
  ConversationID : string;
  UserID : string;
  Title : string
}.
End ChatRequest.

Module ChatResponse.
Record t := {
  Output : string;
  ConversationID : string
}.
End ChatResponse.

Module Message.
Section WithForeign.
Context {F : Foreign}.
Record t := {
  Role : string;
  Content : string;
  Timestamp : Time
}.
End WithForeign.
End Message.

Module Conversation.
Section WithForeign.
Context {F : Foreign}.
Record t := {
  ID : string;
  Title : string;
  CreatedAt : Time;
  Messages : list Message.t
}.
End WithForeign.
End Conversation.

(** The errors the client builds with [fmt.Errorf]. *)
Inductive error :=
| ErrMarshal (err : ext_error)
    (** ["error marshaling request: %w"] *)
| ErrTransport (doing : string) (err : ext_error)
    (** ["error sending request: %w"], ["error getting conversations: %w"],
        ["error getting tools: %w"] *)
| ErrStatus (code : Z)
    (** ["unexpected status code: %d"] *)
| ErrDecode (err : ext_error).
    (** ["error decoding response: %w"] *)

(** [err.Error()] *)
Definition Error (e : error) : string :=
  match e with
  | ErrMarshal err => "error marshaling request: " ++ err
  | ErrTransport doing err => doing ++ ": " ++ err
  | ErrStatus code => "unexpected status code: " ++ FormatInt10 code
  | ErrDecode err => "error decoding response: " ++ err
  end.

Inductive result (A : Type) :=
| Ok (a : A)
| Err (e : error).
Arguments Ok {A} a.
Arguments Err {A} e.

(** Package encoding/json at the types of this package.  A decoder reads
    the whole value from the body stream or reports an error. *)
Class JSON {F : Foreign} := {
  (** [json.Marshal(req)] *)
  Marshal : ChatRequest.t -> ext_error + string;
  (** [json.NewDecoder(body).Decode(&chatResp)] *)
  Decode_ChatResponse : ReadCloser -> ext_error + ChatResponse.t;
  (** decoding into [struct { Conversations []Conversation }] *)
  Decode_Conversations : ReadCloser -> ext_error + list Conversation.t;
  (** decoding into [map[string]interface{}] *)
  Decode_Tools : ReadCloser -> ext_error + ToolMap
}.

(** [time.Second], in nanoseconds *)
Definition Second : Z := 1000000000.

Definition NewClient (baseURL : string) : Client :=
  {| baseURL := baseURL;
     httpClient := {| http.Timeout := Second * 30 |} |}.

Section WithPlatform.
Context {F : Foreign} {P : Platform} {J : JSON}.

(** One call of [httpClient.Post]: the exchange is recorded, the world
    moves on. *)
Definition Post (c : http.Client) (url contentType body : string)
    (n : http.Net) : (ext_error + http.Response) * http.Net :=
  let '(r, w) := http_Post c url contentType body (http.world n) in
  (r, {| http.world := w;
         http.calls := http.calls n ++ [http.POST url contentType body] |}).

(** One call of [httpClient.Get]. *)
Definition Get (c : http.Client) (url : string)
    (n : http.Net) : (ext_error + http.Response) * http.Net :=
  let '(r, w) := http_Get c url (http.world n) in
  (r, {| http.world := w;
         http.calls := http.calls n ++ [http.GET url] |}).

Definition SendMessage (c : Client) (req : ChatRequest.t) (n : http.Net)
    : result ChatResponse.t * http.Net :=
  match Marshal req with
  | inl err => (Err (ErrMarshal err), n)
  | inr jsonData =>
      let '(r, n) :=
        Post (httpClient c) (baseURL c ++ "/chat") "application/json"
             jsonData n in
      match r with
      | inl err => (Err (ErrTransport "error sending request" err), n)
      | inr resp =>
          if negb (http.StatusCode resp =? http.StatusOK)%Z
          then (Err (ErrStatus (http.StatusCode resp)), n)
          else
            match Decode_ChatResponse (http.Body resp) with
            | inl err => (Err (ErrDecode err), n)
            | inr chatResp => (Ok chatResp, n)
            end
      end
  end.

Definition GetConversations (c : Client) (n : http.Net)
    : result (list Conversation.t) * http.Net :=
  let '(r, n) := Get (httpClient c) (baseURL c ++ "/conversations") n in
  match r with
  | inl err => (Err (ErrTransport "error getting conversations" err), n)
  | inr resp =>
      if negb (http.StatusCode resp =? http.StatusOK)%Z
      then (Err (ErrStatus (http.StatusCode resp)), n)
      else
        match Decode_Conversations (http.Body resp) with
        | inl err => (Err (ErrDecode err), n)
        | inr conversations => (Ok conversations, n)
        end
  end.

Definition GetTools (c : Client) (n : http.Net)
    : result ToolMap * http.Net :=
  let '(r, n) := Get (httpClient c) (baseURL c ++ "/tools") n in
  match r with
  | inl err => (Err (ErrTransport "error getting tools" err), n)
  | inr resp =>
      if negb (http.StatusCode resp =? http.StatusOK)%Z
      then (Err (ErrStatus (http.StatusCode resp)), n)
      else
        match Decode_Tools (http.Body resp) with
        | inl err => (Err (ErrDecode err), n)
        | inr result => (Ok result, n)
        end
  end.

End WithPlatform.
End api.

(** ** Package config *)

Module config.

Record Config := {
  TelegramToken : string;
  APIServerURL : string;
  DefaultConversationLimit : Z
}.

Definition getEnvOrDefault (env : gmap string string)
    (key defaultValue : string) : string :=
  let value := Getenv env key in
  if negb (String.eqb value "") then value else defaultValue.

Definition getEnvIntOrDefault (env : gmap string string)
    (key : string) (defaultValue : Z) : Z :=
  let strValue := Getenv env key in
  if String.eqb strValue "" then defaultValue
  else
    match Atoi strValue with
    | Some value => value
    | None => defaultValue
    end.

Definition New (env : gmap string string) : Config :=
  {| TelegramToken := getEnvOrDefault env "TELEGRAM_BOT_TOKEN" "";
     APIServerURL := getEnvOrDefault env "API_SERVER_URL" "http://localhost:8080";
     DefaultConversationLimit :=
       getEnvIntOrDefault env "DEFAULT_CONVERSATION_LIMIT" 10 |}.

End config.

(** ** Package handlers *)

Module handlers.

(** [type Handler struct { apiClient *api.Client; convManager *conversation.Manager }] *)
Record Handler := {
  apiClient : api.Client;
  convManager : conversation.Manager
}.

Definition NewHandler (apiClient : api.Client)
    (convManager : conversation.Manager) : Handler :=
  {| apiClient := apiClient; convManager := convManager |}.

(** The handler after a method of its conversation manager has run. *)
Definition withManager (h : Handler) (m : conversation.Manager) : Handler :=
  {| apiClient := apiClient h; convManager := m |}.

(** The line feed of the Go escape [\n]. *)
Definition LF : string := String (ascii_of_nat 10) EmptyString.

Section WithPlatform.
Context {F : Foreign} {P : Platform} {J : api.JSON}.

Definition HandleStart (h : Handler) (msg : tgbotapi.Message) (n : http.Net)
    : tgbotapi.MessageConfig.t * Handler * http.Net :=
  let args := strings_Fields (CommandArguments msg) in
  match args with
  | arg0 :: _ =>
      (* len(args) > 0: load existing conversation *)
      let session :=
        Some {| conversation.UserID := "";
                conversation.ConversationID := arg0 |} in
      let h :=
        withManager h
          (conversation.UpdateSession (convManager h)
             (tgbotapi.ID (tgbotapi.From msg)) session) in
      (tgbotapi.NewMessage (tgbotapi.Chat_ID (tgbotapi.Chat_ msg))
         ("Loaded conversation: " ++ arg0), h, n)
  | [] =>
      (* start new conversation *)
      let req :=
        {| api.ChatRequest.Input := "/start";
           api.ChatRequest.ConversationID := "";
           api.ChatRequest.UserID :=
             FormatInt10 (tgbotapi.ID (tgbotapi.From msg));
           api.ChatRequest.Title := "New Conversation" |} in
      let '(r, n) := api.SendMessage (apiClient h) req n in
      match r with
      | api.Err _ =>
          (tgbotapi.NewMessage (tgbotapi.Chat_ID (tgbotapi.Chat_ msg))
             "Error starting new conversation", h, n)
      | api.Ok resp =>
          let h :=
            withManager h
              (conversation.StartConversation (convManager h)
                 (tgbotapi.ID (tgbotapi.From msg))
                 (api.ChatResponse.ConversationID resp)) in
          (tgbotapi.NewMessage (tgbotapi.Chat_ID (tgbotapi.Chat_ msg))
             (api.ChatResponse.Output resp), h, n)
      end
  end.

(** [fmt.Sprintf("ID: %s\nTitle: %s\nCreated: %s\n\n", conv.ID, conv.Title,
    conv.CreatedAt.Format("2006-01-02 15:04:05"))] *)
Definition formatConversation (conv : api.Conversation.t) : string :=
  "ID: " ++ api.Conversation.ID conv ++ LF ++
  "Title: " ++ api.Conversation.Title conv ++ LF ++
  "Created: " ++
    time_Format (api.Conversation.CreatedAt conv) "2006-01-02 15:04:05" ++
  LF ++ LF.

Definition HandleList (h : Handler) (msg : tgbotapi.Message) (n : http.Net)
    : tgbotapi.MessageConfig.t * Handler * http.Net :=
  let '(r, n) := api.GetConversations (apiClient h) n in
  match r with
  | api.Err _ =>
      (tgbotapi.NewMessage (tgbotapi.Chat_ID (tgbotapi.Chat_ msg))
         "Error retrieving conversations", h, n)
  | api.Ok conversations =>
      if (length conversations =? 0)%nat
      then
        (tgbotapi.NewMessage (tgbotapi.Chat_ID (tgbotapi.Chat_ msg))
           "No conversations found", h, n)
      else
        (* the strings.Builder, written to once per conversation *)
        let response :=
          fold_left
            (fun response conv => response ++ formatConversation conv)
            conversations
            ("Recent conversations:" ++ LF ++ LF) in
        (tgbotapi.NewMessage (tgbotapi.Chat_ID (tgbotapi.Chat_ msg))
           response, h, n)
  end.

Definition HandleMessage (h : Handler) (msg : tgbotapi.Message)
    (n : http.Net) : tgbotapi.MessageConfig.t * Handler * http.Net :=
  let session :=
    conversation.GetSession (convManager h)
      (tgbotapi.ID (tgbotapi.From msg)) in
  let conversationID :=
    match session with
    | Some s => conversation.ConversationID s
    | None => ""
    end in
  let req :=
    {| api.ChatRequest.Input := tgbotapi.Text msg;
       api.ChatRequest.ConversationID := conversationID;
       api.ChatRequest.UserID :=
         FormatInt10 (tgbotapi.ID (tgbotapi.From msg));
       api.ChatRequest.Title := "" |} in
  let '(r, n) := api.SendMessage (apiClient h) req n in
  match r with
  | api.Err _ =>
      (tgbotapi.NewMessage (tgbotapi.Chat_ID (tgbotapi.Chat_ msg))
         "Error processing message", h, n)
  | api.Ok resp =>
      (* no session or no conversation ID: start a new conversation *)
      let h :=
        if String.eqb conversationID ""
        then
          withManager h
            (conversation.StartConversation (convManager h)
               (tgbotapi.ID (tgbotapi.From msg))
               (api.ChatResponse.ConversationID resp))
        else h in
      (tgbotapi.NewMessage (tgbotapi.Chat_ID (tgbotapi.Chat_ msg))
         (api.ChatResponse.Output resp), h, n)
  end.

Definition HandleServers (h : Handler) (msg : tgbotapi.Message)
    (n : http.Net) : tgbotapi.MessageConfig.t * Handler * http.Net :=
  let '(r, n) := api.GetTools (apiClient h) n in
  match r with
  | api.Err _ =>
      (tgbotapi.NewMessage (tgbotapi.Chat_ID (tgbotapi.Chat_ msg))
         "Error retrieving server information", h, n)
  | api.Ok tools =>
      (tgbotapi.NewMessage (tgbotapi.Chat_ID (tgbotapi.Chat_ msg))
         ("Available tools: " ++ fmt_plus_v tools), h, n)
  end.

End WithPlatform.
End handlers.

(** ** Package main *)

Module main.

(** How far [main] gets before the update loop. *)
Inductive Startup :=
| Fatal (msg : string)
| Running (cfg : config.Config) (handler : handlers.Handler).

Section WithPlatform.
Context {F : Foreign} {P : Platform} {J : api.JSON}.

(** [main] up to and including [tgbotapi.NewBotAPI]. *)
Definition startup (env : gmap string string) (w : World)
    : Startup * World :=
  let cfg := config.New env in
  if String.eqb (config.TelegramToken cfg) ""
  then (Fatal "TELEGRAM_BOT_TOKEN is required", w)
  else
    let apiClient := api.NewClient (config.APIServerURL cfg) in
    let convManager := conversation.NewManager in
    let handler := handlers.NewHandler apiClient convManager in
    let '(err, w) := NewBotAPI (config.TelegramToken cfg) w in
    match err with
    | Some e => (Fatal ("Error creating bot: " ++ e), w)
    | None => (Running cfg handler, w)
    end.

(** The body of [for update := range updates]: the message handed to
    [bot.Send], if any. *)
Definition handleUpdate (handler : handlers.Handler)
    (update : tgbotapi.Update) (n : http.Net)
    : option tgbotapi.MessageConfig.t * handlers.Handler * http.Net :=
  match tgbotapi.Update_Message update with
  | None => (None, handler, n)
  | Some m =>
      let '(msg, handler, n) :=
        if IsCommand m then
          let cmd := Command m in
          if String.eqb cmd "start" then handlers.HandleStart handler m n
          else if String.eqb cmd "list" then handlers.HandleList handler m n
          else if String.eqb cmd "servers"
               then handlers.HandleServers handler m n
          else
            (tgbotapi.NewMessage (tgbotapi.Chat_ID (tgbotapi.Chat_ m))
               "Unknown command", handler, n)
        else handlers.HandleMessage handler m n in
      let msg :=
        {| tgbotapi.MessageConfig.ChatID := tgbotapi.MessageConfig.ChatID msg;
           tgbotapi.MessageConfig.Text := tgbotapi.MessageConfig.Text msg;
           tgbotapi.MessageConfig.ReplyToMessageID := tgbotapi.MessageID m |} in
      (Some msg, handler, n)
  end.

(** The update loop over the updates received so far; the messages handed
    to [bot.Send] are collected in order. *)
Fixpoint loop (handler : handlers.Handler) (updates : list tgbotapi.Update)
    (n : http.Net)
    : list tgbotapi.MessageConfig.t * handlers.Handler * http.Net :=
  match updates with
  | [] => ([], handler, n)
  | update :: updates =>
      let '(sent, handler, n) := handleUpdate handler update n in
      let '(rest, handler, n) := loop handler updates n in
      (match sent with Some msg => msg :: rest | None => rest end,
       handler, n)
  end.

End WithPlatform.
End main.

(** ** Vocabulary of the properties *)

(** The user a message comes from and the chat it was posted in. *)
Definition senderOf (msg : tgbotapi.Message) : Z :=
  tgbotapi.ID (tgbotapi.From msg).

Definition chatOf (msg : tgbotapi.Message) : Z :=
  tgbotapi.Chat_ID (tgbotapi.Chat_ msg).

(** The chat request [HandleMessage] builds for a text message. *)
Definition messageRequest (h : handlers.Handler) (msg : tgbotapi.Message)
    : api.ChatRequest.t :=
  {| api.ChatRequest.Input := tgbotapi.Text msg;
     api.ChatRequest.ConversationID :=
       conversation.conversationOf (handlers.convManager h)
         (tgbotapi.ID (tgbotapi.From msg));
     api.ChatRequest.UserID := FormatInt10 (tgbotapi.ID (tgbotapi.From msg));
     api.ChatRequest.Title := "" |}.

(** The chat request [HandleStart] builds for a new conversation. *)
Definition startRequest (msg : tgbotapi.Message) : api.ChatRequest.t :=
  {| api.ChatRequest.Input := "/start";
     api.ChatRequest.ConversationID := "";
     api.ChatRequest.UserID := FormatInt10 (tgbotapi.ID (tgbotapi.From msg));
     api.ChatRequest.Title := "New Conversation" |}.

(** The session [StartConversation] and the resume path install. *)
Definition sessionFor (conversationID : string) : conversation.UserSession :=
  {| conversation.UserID := "";
     conversation.ConversationID := conversationID |}.

(** The reply as the update loop hands it to [bot.Send]. *)
Definition threaded (reply : tgbotapi.MessageConfig.t)
    (m : tgbotapi.Message) : tgbotapi.MessageConfig.t :=
  {| tgbotapi.MessageConfig.ChatID := tgbotapi.MessageConfig.ChatID reply;
     tgbotapi.MessageConfig.Text := tgbotapi.MessageConfig.Text reply;
     tgbotapi.MessageConfig.ReplyToMessageID := tgbotapi.MessageID m |}.

(** An update that carries the message [m]. *)
Definition updateOf (m : tgbotapi.Message) : tgbotapi.Update :=
  {| tgbotapi.UpdateID := 0; tgbotapi.Update_Message := Some m |}.


(** A stored pointer is [nil] or points to a session without user
    identity. *)
Definition anonymous (p : option conversation.UserSession) : Prop :=
  match p with
  | Some s => conversation.UserID s = ""
  | None => True
  end.

(** No stored session carries a user identity. *)
Definition sessionsAnonymous (m : conversation.Manager) : Prop :=
  map_Forall (fun _ p => anonymous p) (conversation.sessions m).

(** Two managers show every user the same conversation identity. *)
Definition sameConversations (m1 m2 : conversation.Manager) : Prop :=
  forall u, conversation.conversationOf m1 u = conversation.conversationOf m2 u.

(** The handler [main] ends up with, if it gets to the update loop. *)
Definition handlerOf (s : main.Startup) : option handlers.Handler :=
  match s with
  | main.Fatal _ => None
  | main.Running _ handler => Some handler
  end.

Section Vocabulary.
Context {F : Foreign} {P : Platform} {J : api.JSON}.

(** An exchange that is a POST carries the serialisation of a chat request
    whose user identity is the decimal rendering of [u]. *)
Definition sentBy (u : Z) (c : http.Call) : Prop :=
  match c with
  | http.POST _ _ body =>
      exists req,
        api.Marshal req = inr body /\
        api.ChatRequest.UserID req = FormatInt10 u
  | http.GET _ => True
  end.

(** What handling a message of user [u] leaves behind, starting from the
    net [n]: an anonymous store, and new exchanges sent on behalf of [u]. *)
Definition settled (u : Z) (n : http.Net)
    (res : tgbotapi.MessageConfig.t * handlers.Handler * http.Net) : Prop :=
  sessionsAnonymous (handlers.convManager res.1.2) /\
  exists new,
    http.calls res.2 = (http.calls n ++ new)%list /\
    Forall (sentBy u) new.

(** The rendering of a whole listing. *)
Definition listing (conversations : list api.Conversation.t) : string :=
  fold_right append "" (map handlers.formatConversation conversations).

(** What every way of handling the message [msg] has in common: the reply
    goes to the chat of the message and is not yet threaded, the client is
    kept, only the sender's session may have changed, and at most one
    exchange was started. *)
Definition handled (h : handlers.Handler) (msg : tgbotapi.Message)
    (n : http.Net)
    (res : tgbotapi.MessageConfig.t * handlers.Handler * http.Net) : Prop :=
  tgbotapi.MessageConfig.ChatID res.1.1 = chatOf msg /\
  tgbotapi.MessageConfig.ReplyToMessageID res.1.1 = 0 /\
  handlers.apiClient res.1.2 = handlers.apiClient h /\
  (forall u, u <> senderOf msg ->
     conversation.GetSession (handlers.convManager res.1.2) u =
       conversation.GetSession (handlers.convManager h) u) /\
  exists new,
    http.calls res.2 = (http.calls n ++ new)%list /\ (length new <= 1)%nat.

End Vocabulary.

(** The chat and the message a reply to [m] is sent to. *)
Definition addressOf (m : tgbotapi.Message) : Z * Z :=
  (chatOf m, tgbotapi.MessageID m).

(** The chat and the message a reply is sent to. *)
Definition addressedTo (reply : tgbotapi.MessageConfig.t) : Z * Z :=
  (tgbotapi.MessageConfig.ChatID reply,
   tgbotapi.MessageConfig.ReplyToMessageID reply).

(** The update is anything but a [/start] command of user [u]. *)
Definition keepsConversationOf {F : Foreign} {P : Platform} (u : Z)
    (update : tgbotapi.Update) : Prop :=
  forall m,
    tgbotapi.Update_Message update = Some m ->
    IsCommand m = true -> Command m = "start" -> senderOf m <> u.


(** ** A scripted backend

    A small instance of the outside world, used to run the handlers on
    concrete events: the backend answers from a script, bodies are either
    JSON text of a chat response or an already parsed listing, white space
    is ASCII white space, and a command is the leading [bot_command]
    entity of a message. *)

Module scripted.

(** The double quote. *)
Definition DQ : string := String (ascii_of_nat 34) EmptyString.

Inductive body :=
| ChatJSON (text : string)
| ListingJSON (conversations : list (string * string * string))
| ToolsJSON (rendering : string).

#[export] Instance foreign : Foreign := {|
  World := list (ext_error + Z * body);
  Time := string;
  ReadCloser := body;
  ToolMap := string
|}.

Definition response (code : Z) (b : body) : http.Response :=
  {| http.StatusCode := code; http.Body := b |}.

(** The next scripted answer; an exhausted script refuses the connection. *)
Definition answer (w : list (ext_error + Z * body))
    : (ext_error + http.Response) * list (ext_error + Z * body) :=
  match w with
  | [] => (inl "connection refused", [])
  | inl e :: w => (inl e, w)
  | inr (code, b) :: w =>
      (inr (response code b), w)
  end.

Definition isSpace (c : ascii) : bool :=
  let n := nat_of_ascii c in
  ((9 <=? n) && (n <=? 13) || (n =? 32))%nat.

Fixpoint fieldsFrom (field : string) (s : string) : list string :=
  match s with
  | EmptyString => if String.eqb field "" then [] else [field]
  | String c rest =>
      if isSpace c
      then if String.eqb field "" then fieldsFrom "" rest
           else field :: fieldsFrom "" rest
      else fieldsFrom (field ++ String c EmptyString) rest
  end.

Definition Fields (s : string) : list string := fieldsFrom "" s.

(** The leading [bot_command] entity of a message, if it has one. *)
Definition commandEntity (m : tgbotapi.Message)
    : option tgbotapi.MessageEntity :=
  match tgbotapi.Entities m with
  | entity :: _ =>
      if (tgbotapi.Offset entity =? 0)%Z
         && String.eqb (tgbotapi.Type_ entity) "bot_command"
      then Some entity else None
  | [] => None
  end.

Definition isCommand (m : tgbotapi.Message) : bool :=
  match commandEntity m with Some _ => true | None => false end.

Fixpoint untilAt (s : string) : string :=
  match s with
  | EmptyString => EmptyString
  | String c rest => if Ascii.eqb c "@" then EmptyString
                     else String c (untilAt rest)
  end.

Definition command (m : tgbotapi.Message) : string :=
  match commandEntity m with
  | Some entity =>
      untilAt (String.substring 1 (Z.to_nat (tgbotapi.Length entity) - 1)
                 (tgbotapi.Text m))
  | None => ""
  end.

Definition commandArguments (m : tgbotapi.Message) : string :=
  match commandEntity m with
  | Some entity =>
      let len := Z.to_nat (tgbotapi.Length entity) in
      if (String.length (tgbotapi.Text m) =? len)%nat then ""
      else String.substring (len + 1)
             (String.length (tgbotapi.Text m) - (len + 1))
             (tgbotapi.Text m)
  | None => ""
  end.

#[export] Instance platform : Platform := {|
  http_Post := fun _ _ _ _ w => answer w;
  http_Get := fun _ _ w => answer w;
  time_Format := fun t _ => t;
  fmt_plus_v := fun tools => tools;
  strings_Fields := Fields;
  IsCommand := isCommand;
  Command := command;
  CommandArguments := commandArguments;
  NewBotAPI := fun _ w => (None, w)
|}.

(** [s] without the prefix [p], if it starts with it. *)
Fixpoint stripPrefix (p s : string) : option string :=
  match p, s with
  | EmptyString, _ => Some s
  | String a p, String b s => if Ascii.eqb a b then stripPrefix p s else None
  | String _ _, EmptyString => None
  end.

(** The text up to the next double quote, and what follows the quote. *)
Fixpoint untilQuote (s : string) : option (string * string) :=
  match s with
  | EmptyString => None
  | String c rest =>
      if Ascii.eqb c (ascii_of_nat 34) then Some (EmptyString, rest)
      else
        match untilQuote rest with
        | Some (v, rest) => Some (String c v, rest)
        | None => None
        end
  end.

(** Reads an object of the exact shape
    [{"output":"...","conversation_id":"..."}], without escapes. *)
Definition decodeChat (text : string) : ext_error + api.ChatResponse.t :=
  let parsed :=
    s ← stripPrefix ("{" ++ DQ ++ "output" ++ DQ ++ ":" ++ DQ) text;
    '(output, s) ← untilQuote s;
    s ← stripPrefix ("," ++ DQ ++ "conversation_id" ++ DQ ++ ":" ++ DQ) s;
    '(id, s) ← untilQuote s;
    if String.eqb s "}"
    then Some {| api.ChatResponse.Output := output;
                 api.ChatResponse.ConversationID := id |}
    else None in
  match parsed with
  | Some r => inr r
  | None => inl "invalid character"
  end.

(** A string field of a JSON object; [omitempty] drops an empty one. *)
Definition member (omitempty : bool) (name value : string) : list string :=
  if omitempty && String.eqb value "" then []
  else [DQ ++ name ++ DQ ++ ":" ++ DQ ++ value ++ DQ].

Definition marshal (req : api.ChatRequest.t) : string :=
  "{" ++
  String.concat ","
    (member false "input" (api.ChatRequest.Input req) ++
     member true "conversation_id" (api.ChatRequest.ConversationID req) ++
     member true "user_id" (api.ChatRequest.UserID req) ++
     member true "title" (api.ChatRequest.Title req)) ++
  "}".

(** A conversation without messages. *)
Definition summary (c : string * string * string) : api.Conversation.t :=
  let '(id, title, created) := c in
  {| api.Conversation.ID := id;
     api.Conversation.Title := title;
     api.Conversation.CreatedAt := created;
     api.Conversation.Messages := [] |}.

#[export] Instance json : api.JSON := {|
  api.Marshal := fun req => inr (marshal req);
  api.Decode_ChatResponse := fun b =>
    match b with
    | ChatJSON text => decodeChat text
    | _ => inl "cannot unmarshal"
    end;
  api.Decode_Conversations := fun b =>
    match b with
    | ListingJSON cs => inr (map summary cs)
    | _ => inl "cannot unmarshal"
    end;
  api.Decode_Tools := fun b =>
    match b with
    | ToolsJSON rendering => inr rendering
    | _ => inl "cannot unmarshal"
    end
|}.

(** A net that has made no call yet, with the given script. *)
Definition net (script : list (ext_error + Z * body)) : http.Net :=
  {| http.world := script; http.calls := [] |}.

(** A handler as [main] builds it. *)
Definition handler : handlers.Handler :=
  handlers.NewHandler (api.NewClient "http://localhost:8080")
    conversation.NewManager.

(** A text message and a command message from a user, in a private chat. *)
Definition text (user : Z) (s : string) : tgbotapi.Message :=
  {| tgbotapi.MessageID := 1;
     tgbotapi.From := {| tgbotapi.ID := user |};
     tgbotapi.Chat_ := {| tgbotapi.Chat_ID := user |};
     tgbotapi.Text := s;
     tgbotapi.Entities := [] |}.

Definition slash (user : Z) (name args : string) : tgbotapi.Message :=
  {| tgbotapi.MessageID := 1;
     tgbotapi.From := {| tgbotapi.ID := user |};
     tgbotapi.Chat_ := {| tgbotapi.Chat_ID := user |};
     tgbotapi.Text :=
       if String.eqb args "" then "/" ++ name else "/" ++ name ++ " " ++ args;
     tgbotapi.Entities :=
       [ {| tgbotapi.Type_ := "bot_command";
            tgbotapi.Offset := 0;
            tgbotapi.Length := Z.of_nat (String.length name) + 1 |} ] |}.

(** The body [{"output":"hi","conversation_id":"abc123"}]. *)
Definition hi_abc123 : body :=
  ChatJSON ("{" ++ DQ ++ "output" ++ DQ ++ ":" ++ DQ ++ "hi" ++ DQ ++ "," ++
            DQ ++ "conversation_id" ++ DQ ++ ":" ++ DQ ++ "abc123" ++ DQ ++
            "}").

(** The chat response that body decodes to. *)
Definition hi : api.ChatResponse.t :=
  {| api.ChatResponse.Output := "hi";
     api.ChatResponse.ConversationID := "abc123" |}.

(** The net after an exhausted script has answered one POST of [body] to
    the chat endpoint. *)
Definition posted (body : string) : http.Net :=
  {| http.world := [];
     http.calls :=
       [http.POST "http://localhost:8080/chat" "application/json" body] |}.

(** A handler whose manager holds the resumed conversation [xyz] of
    user 7. *)
Definition resumed : handlers.Handler :=
  handlers.NewHandler (api.NewClient "http://localhost:8080")
    (conversation.UpdateSession conversation.NewManager 7
       (Some (sessionFor "xyz"))).

(** A listing of two conversations, the newer one first. *)
Definition two : body :=
  ListingJSON [("c1", "First", "2024-01-02 03:04:05");
               ("c0", "Zero", "2023-01-02 03:04:05")].

(** The net after an exhausted script has answered one GET of the
    listing. *)
Definition fetched : http.Net :=
  {| http.world := [];
     http.calls := [http.GET "http://localhost:8080/conversations"] |}.

(** A world in which every connection is refused. *)
Definition offline : list (ext_error + Z * body) := [].

(** An environment with a token and a listing limit of one. *)
Definition environment : gmap string string :=
  <["TELEGRAM_BOT_TOKEN" := "123:abc"]>
    (<["DEFAULT_CONVERSATION_LIMIT" := "1"]> ∅).

End scripted.

(** * Properties *)

(** ** The session store *)

Section Store.
Import conversation.

Lemma manager_eq (m1 m2 : Manager) :
  sessions m1 = sessions m2 -> m1 = m2.
Proof. destruct m1, m2; simpl; congruence. Qed.

Lemma GetSession_Start m u c u' :
  GetSession (StartConversation m u c) u' =
    if decide (u = u')
    then Some {| UserID := ""; ConversationID := c |}
    else GetSession m u'.
Proof.
  unfold GetSession, StartConversation; simpl.
  rewrite lookup_insert. destruct (decide (u = u')); reflexivity.
Qed.

Lemma GetSession_Update m u s u' :
  GetSession (UpdateSession m u s) u' =
    if decide (u = u') then s else GetSession m u'.
Proof.
  unfold GetSession, UpdateSession; simpl.
  rewrite lookup_insert. destruct (decide (u = u')); reflexivity.
Qed.

Lemma GetSession_Clear m u u' :
  GetSession (ClearSession m u) u' =
    if decide (u = u') then None else GetSession m u'.
Proof.
  unfold GetSession, ClearSession; simpl.
  rewrite lookup_delete. destruct (decide (u = u')); reflexivity.
Qed.

(** C6. [StartConversation] followed by [GetSession] for the same user
    returns a session whose conversation identity is exactly the one
    given, whatever the manager held before: the returned session is the
    freshly built one, nothing of a prior session survives in it. *)
Theorem start_then_get (m : Manager) (U : Z) (C : string) :
  exists s,
    GetSession (StartConversation m U C) U = Some s /\
    ConversationID s = C /\
    s = {| UserID := ""; ConversationID := C |} /\
    forall m', GetSession (StartConversation m' U C) U = Some s.
Proof.
  exists {| UserID := ""; ConversationID := C |}.
  repeat split; try intros m'; rewrite GetSession_Start;
    destruct (decide (U = U)); congruence.
Qed.

(** C7. [ClearSession] followed by [GetSession] returns the absent
    result; clearing a user that has no entry leaves the manager as it
    was; clearing a user whose lookup is already absent changes no
    lookup; clearing twice is the same as clearing once. *)
Theorem clear_then_get (m : Manager) (U : Z) :
  GetSession (ClearSession m U) U = None /\
  (sessions m !! U = None -> ClearSession m U = m) /\
  (GetSession m U = None ->
     forall U', GetSession (ClearSession m U) U' = GetSession m U') /\
  ClearSession (ClearSession m U) U = ClearSession m U.
Proof.
  split; [|split; [|split]].
  - rewrite GetSession_Clear. destruct (decide (U = U)); congruence.
  - intros Hnone. apply manager_eq; simpl. apply delete_id, Hnone.
  - intros Hnone U'. rewrite GetSession_Clear.
    destruct (decide (U = U')) as [<-|]; congruence.
  - apply manager_eq; simpl. apply delete_id, lookup_delete_eq.
Qed.

Lemma clear_then_get_witness :
  GetSession (ClearSession NewManager 7) 7 = None /\
  ClearSession NewManager 7 = NewManager /\
  GetSession (ClearSession NewManager 7) 8 = GetSession NewManager 8.
Proof.
  destruct (clear_then_get NewManager 7) as (H1 & H2 & H3 & _).
  split; [exact H1|].
  split; [apply H2; reflexivity | apply H3; reflexivity].
Defined.

End Store.

(** ** The backend client *)

Section Client.
Context {F : Foreign} {P : Platform} {J : api.JSON}.

(** [SendMessage] starts at most one exchange, a POST to the chat
    endpoint, and none when the request cannot be serialised. *)
Lemma SendMessage_calls (c : api.Client) (req : api.ChatRequest.t)
    (n : http.Net) :
  http.calls (api.SendMessage c req n).2 = http.calls n \/
  exists jsonData,
    api.Marshal req = inr jsonData /\
    http.calls (api.SendMessage c req n).2 =
      (http.calls n ++
        [http.POST (api.baseURL c ++ "/chat") "application/json" jsonData])%list.
Proof.
  unfold api.SendMessage, api.Post.
  destruct (api.Marshal req) as [e|jsonData]; [left; reflexivity|].
  right. exists jsonData. split; [reflexivity|].
  destruct (http_Post _ _ _ _ _) as [[e|resp] w]; [reflexivity|].
  destruct (negb _); [reflexivity|].
  destruct (api.Decode_ChatResponse _); reflexivity.
Qed.

(** C4. [SendMessage] ends in exactly one of five ways, each determined
    by the first step that fails: the request does not serialise (no
    exchange is started); the single POST yields no response (transport
    error); the response status is not 200 (protocol error carrying the
    status); the body does not decode (decoding error); or the status is
    200 and the body decodes, and the decoded value is the result.  In the
    last four cases exactly one exchange has been started, and a decoded
    value is returned in the successful case only. *)
Theorem SendMessage_outcome (c : api.Client) (req : api.ChatRequest.t)
    (n : http.Net) :
  let '(r, n') := api.SendMessage c req n in
  (exists e,
     api.Marshal req = inl e /\ r = api.Err (api.ErrMarshal e) /\ n' = n)
  \/
  (exists jsonData out w',
     api.Marshal req = inr jsonData /\
     http_Post (api.httpClient c) (api.baseURL c ++ "/chat")
       "application/json" jsonData (http.world n) = (out, w') /\
     n' = {| http.world := w';
             http.calls :=
               http.calls n ++
                 [http.POST (api.baseURL c ++ "/chat") "application/json"
                    jsonData] |} /\
     ((exists e,
         out = inl e /\
         r = api.Err (api.ErrTransport "error sending request" e))
      \/
      (exists resp,
         out = inr resp /\ http.StatusCode resp <> http.StatusOK /\
         r = api.Err (api.ErrStatus (http.StatusCode resp)))
      \/
      (exists resp e,
         out = inr resp /\ http.StatusCode resp = http.StatusOK /\
         api.Decode_ChatResponse (http.Body resp) = inl e /\
         r = api.Err (api.ErrDecode e))
      \/
      (exists resp chatResp,
         out = inr resp /\ http.StatusCode resp = http.StatusOK /\
         api.Decode_ChatResponse (http.Body resp) = inr chatResp /\
         r = api.Ok chatResp))).
Proof.
  unfold api.SendMessage, api.Post.
  destruct (api.Marshal req) as [e|jsonData]; [left; eauto|].
  destruct (http_Post _ _ _ _ _) as [out w'] eqn:Hpost.
  destruct out as [e|resp].
  { right. exists jsonData, (inl e), w'. repeat split; eauto. }
  destruct (Z.eqb_spec (http.StatusCode resp) http.StatusOK) as [Hok|Hbad];
    simpl.
  - destruct (api.Decode_ChatResponse (http.Body resp)) as [e|v] eqn:Hdec;
      right; exists jsonData, (inr resp), w'; repeat split; eauto 10.
  - right. exists jsonData, (inr resp), w'. repeat split; eauto 10.
Qed.

(** The listing call has the same shape: one GET, then the status check,
    then the decoder. *)
Lemma GetConversations_calls (c : api.Client) (n : http.Net) :
  http.calls (api.GetConversations c n).2 =
    (http.calls n ++ [http.GET (api.baseURL c ++ "/conversations")])%list.
Proof.
  unfold api.GetConversations, api.Get.
  destruct (http_Get _ _ _) as [[e|resp] w]; [reflexivity|].
  destruct (negb _); [reflexivity|].
  destruct (api.Decode_Conversations _); reflexivity.
Qed.

End Client.

(** The client [main] builds allows each exchange thirty seconds. *)
Lemma NewClient_timeout (baseURL : string) :
  http.Timeout (api.httpClient (api.NewClient baseURL)) = 30 * api.Second /\
  api.baseURL (api.NewClient baseURL) = baseURL.
Proof. split; reflexivity. Qed.

(** ** The handlers *)

Section Handlers.
Context {F : Foreign} {P : Platform} {J : api.JSON}.

Lemma HandleMessage_Ok (h : handlers.Handler) (msg : tgbotapi.Message)
    (n n' : http.Net) (resp : api.ChatResponse.t) :
  api.SendMessage (handlers.apiClient h) (messageRequest h msg) n =
    (api.Ok resp, n') ->
  handlers.HandleMessage h msg n =
    (tgbotapi.NewMessage (chatOf msg) (api.ChatResponse.Output resp),
     (if String.eqb
           (conversation.conversationOf (handlers.convManager h)
              (senderOf msg)) ""
      then handlers.withManager h
             (conversation.StartConversation (handlers.convManager h)
                (senderOf msg) (api.ChatResponse.ConversationID resp))
      else h),
     n').
Proof.
  intros Hsend. unfold handlers.HandleMessage.
  change (api.SendMessage (handlers.apiClient h) _ n)
    with (api.SendMessage (handlers.apiClient h) (messageRequest h msg) n).
  rewrite Hsend. reflexivity.
Qed.

Lemma HandleMessage_Err (h : handlers.Handler) (msg : tgbotapi.Message)
    (n n' : http.Net) (e : api.error) :
  api.SendMessage (handlers.apiClient h) (messageRequest h msg) n =
    (api.Err e, n') ->
  handlers.HandleMessage h msg n =
    (tgbotapi.NewMessage (chatOf msg) "Error processing message", h, n').
Proof.
  intros Hsend. unfold handlers.HandleMessage.
  change (api.SendMessage (handlers.apiClient h) _ n)
    with (api.SendMessage (handlers.apiClient h) (messageRequest h msg) n).
  rewrite Hsend. reflexivity.
Qed.

Lemma HandleStart_resume (h : handlers.Handler) (msg : tgbotapi.Message)
    (n : http.Net) (arg : string) (rest : list string) :
  strings_Fields (CommandArguments msg) = arg :: rest ->
  handlers.HandleStart h msg n =
    (tgbotapi.NewMessage (chatOf msg) ("Loaded conversation: " ++ arg),
     handlers.withManager h
       (conversation.UpdateSession (handlers.convManager h) (senderOf msg)
          (Some (sessionFor arg))),
     n).
Proof. intros Hargs. unfold handlers.HandleStart. rewrite Hargs. reflexivity. Qed.

Lemma HandleStart_Ok (h : handlers.Handler) (msg : tgbotapi.Message)
    (n n' : http.Net) (resp : api.ChatResponse.t) :
  strings_Fields (CommandArguments msg) = [] ->
  api.SendMessage (handlers.apiClient h) (startRequest msg) n =
    (api.Ok resp, n') ->
  handlers.HandleStart h msg n =
    (tgbotapi.NewMessage (chatOf msg) (api.ChatResponse.Output resp),
     handlers.withManager h
       (conversation.StartConversation (handlers.convManager h)
          (senderOf msg) (api.ChatResponse.ConversationID resp)),
     n').
Proof.
  intros Hargs Hsend. unfold handlers.HandleStart. rewrite Hargs.
  change (api.SendMessage (handlers.apiClient h) _ n)
    with (api.SendMessage (handlers.apiClient h) (startRequest msg) n).
  rewrite Hsend. reflexivity.
Qed.

Lemma HandleStart_Err (h : handlers.Handler) (msg : tgbotapi.Message)
    (n n' : http.Net) (e : api.error) :
  strings_Fields (CommandArguments msg) = [] ->
  api.SendMessage (handlers.apiClient h) (startRequest msg) n =
    (api.Err e, n') ->
  handlers.HandleStart h msg n =
    (tgbotapi.NewMessage (chatOf msg) "Error starting new conversation",
     h, n').
Proof.
  intros Hargs Hsend. unfold handlers.HandleStart. rewrite Hargs.
  change (api.SendMessage (handlers.apiClient h) _ n)
    with (api.SendMessage (handlers.apiClient h) (startRequest msg) n).
  rewrite Hsend. reflexivity.
Qed.

(** A response whose status is not 200 makes [SendMessage] fail. *)
Lemma SendMessage_status (c : api.Client) (req : api.ChatRequest.t)
    (n : http.Net) (jsonData : string) (resp : http.Response) (w' : World) :
  api.Marshal req = inr jsonData ->
  http_Post (api.httpClient c) (api.baseURL c ++ "/chat") "application/json"
    jsonData (http.world n) = (inr resp, w') ->
  http.StatusCode resp <> http.StatusOK ->
  api.SendMessage c req n =
    (api.Err (api.ErrStatus (http.StatusCode resp)),
     {| http.world := w';
        http.calls :=
          (http.calls n ++
             [http.POST (api.baseURL c ++ "/chat") "application/json"
                jsonData])%list |}).
Proof.
  intros Hm Hp Hs. unfold api.SendMessage, api.Post. rewrite Hm, Hp.
  destruct (Z.eqb_spec (http.StatusCode resp) http.StatusOK); [done|].
  reflexivity.
Qed.

(** How the update loop routes a message. *)
Lemma handleUpdate_text (h : handlers.Handler) (m : tgbotapi.Message)
    (n : http.Net) :
  IsCommand m = false ->
  main.handleUpdate h (updateOf m) n =
    let '(reply, h', n') := handlers.HandleMessage h m n in
    (Some (threaded reply m), h', n').
Proof.
  intros Hc. unfold main.handleUpdate; simpl. rewrite Hc.
  destruct (handlers.HandleMessage h m n) as [[reply h'] n']. reflexivity.
Qed.

Lemma handleUpdate_start (h : handlers.Handler) (m : tgbotapi.Message)
    (n : http.Net) :
  IsCommand m = true -> Command m = "start" ->
  main.handleUpdate h (updateOf m) n =
    let '(reply, h', n') := handlers.HandleStart h m n in
    (Some (threaded reply m), h', n').
Proof.
  intros Hc Hs. unfold main.handleUpdate; simpl. rewrite Hc, Hs; simpl.
  destruct (handlers.HandleStart h m n) as [[reply h'] n']. reflexivity.
Qed.

End Handlers.

(** ** Text exchanges, new conversations and resumed conversations *)

Section Exchanges.
Context {F : Foreign} {P : Platform} {J : api.JSON}.

(** C1. When the exchange for a text message succeeds, the reply is the
    backend's output text.  If the sender's session had a non-empty
    conversation identity, the handler, and with it the session store, is
    left exactly as it was; if the sender had no session, a [nil] entry or
    a session with an empty conversation identity, the sender's session
    afterwards is a fresh one whose conversation identity is the one the
    backend returned.  Other users' sessions are untouched either way. *)
Theorem freeform_success (h : handlers.Handler) (msg : tgbotapi.Message)
    (n n' : http.Net) (resp : api.ChatResponse.t) :
  api.SendMessage (handlers.apiClient h) (messageRequest h msg) n =
    (api.Ok resp, n') ->
  exists h',
    handlers.HandleMessage h msg n =
      (tgbotapi.NewMessage (chatOf msg) (api.ChatResponse.Output resp),
       h', n') /\
    (conversation.conversationOf (handlers.convManager h) (senderOf msg)
       <> "" ->
     h' = h /\
     conversation.GetSession (handlers.convManager h') (senderOf msg) =
       conversation.GetSession (handlers.convManager h) (senderOf msg)) /\
    (conversation.conversationOf (handlers.convManager h) (senderOf msg)
       = "" ->
     conversation.GetSession (handlers.convManager h') (senderOf msg) =
       Some (sessionFor (api.ChatResponse.ConversationID resp))) /\
    (forall u, u <> senderOf msg ->
       conversation.GetSession (handlers.convManager h') u =
         conversation.GetSession (handlers.convManager h) u).
Proof.
  intros Hsend. rewrite (HandleMessage_Ok _ _ _ _ _ Hsend).
  eexists; split; [reflexivity|].
  destruct (String.eqb_spec
              (conversation.conversationOf (handlers.convManager h)
                 (senderOf msg)) "") as [Hempty|Hset].
  - split; [intros Hne; contradiction|]. split.
    + intros _. simpl. rewrite GetSession_Start.
      destruct (decide (senderOf msg = senderOf msg)); [reflexivity|done].
    + intros u Hu. simpl. rewrite GetSession_Start.
      destruct (decide (senderOf msg = u)); [congruence|reflexivity].
  - split; [intros _; split; reflexivity|].
    split; [intros Hempty; contradiction|reflexivity].
Qed.

(** C2. When the exchange for a [/start] command without argument
    succeeds, the reply is the backend's output text and the sender's
    session afterwards is a fresh one whose conversation identity is the
    one the backend returned, whatever the store held before, hence in
    particular for a user with no prior session. *)
Theorem new_conversation_success (h : handlers.Handler)
    (msg : tgbotapi.Message) (n n' : http.Net) (resp : api.ChatResponse.t) :
  strings_Fields (CommandArguments msg) = [] ->
  api.SendMessage (handlers.apiClient h) (startRequest msg) n =
    (api.Ok resp, n') ->
  exists h',
    handlers.HandleStart h msg n =
      (tgbotapi.NewMessage (chatOf msg) (api.ChatResponse.Output resp),
       h', n') /\
    conversation.GetSession (handlers.convManager h') (senderOf msg) =
      Some (sessionFor (api.ChatResponse.ConversationID resp)) /\
    conversation.conversationOf (handlers.convManager h') (senderOf msg) =
      api.ChatResponse.ConversationID resp.
Proof.
  intros Hargs Hsend. rewrite (HandleStart_Ok _ _ _ _ _ Hargs Hsend).
  eexists; split; [reflexivity|].
  unfold conversation.conversationOf. simpl. rewrite GetSession_Start.
  destruct (decide (senderOf msg = senderOf msg)); [|done].
  split; reflexivity.
Qed.

(** C3. When the exchange fails, the reply is the fixed error text of the
    handler and the handler, and with it the whole session store, is
    exactly what it was: for a text message, for a [/start] command
    without argument, and in particular for a text message that the
    backend answers with a status other than 200, such as 500. *)
Theorem exchange_failure (h : handlers.Handler) (msg : tgbotapi.Message)
    (n : http.Net) :
  (forall e n',
     api.SendMessage (handlers.apiClient h) (messageRequest h msg) n =
       (api.Err e, n') ->
     handlers.HandleMessage h msg n =
       (tgbotapi.NewMessage (chatOf msg) "Error processing message", h, n'))
  /\
  (forall e n',
     strings_Fields (CommandArguments msg) = [] ->
     api.SendMessage (handlers.apiClient h) (startRequest msg) n =
       (api.Err e, n') ->
     handlers.HandleStart h msg n =
       (tgbotapi.NewMessage (chatOf msg) "Error starting new conversation",
        h, n'))
  /\
  (forall jsonData resp w',
     api.Marshal (messageRequest h msg) = inr jsonData ->
     http_Post (api.httpClient (handlers.apiClient h))
       (api.baseURL (handlers.apiClient h) ++ "/chat") "application/json"
       jsonData (http.world n) = (inr resp, w') ->
     http.StatusCode resp <> http.StatusOK ->
     exists n',
       handlers.HandleMessage h msg n =
         (tgbotapi.NewMessage (chatOf msg) "Error processing message",
          h, n')).
Proof.
  split; [|split].
  - intros e n'. apply HandleMessage_Err.
  - intros e n'. apply HandleStart_Err.
  - intros jsonData resp w' Hm Hp Hs. eexists.
    eapply HandleMessage_Err. eapply SendMessage_status; eassumption.
Qed.

(** C5. A [/start] command with an argument makes no backend call: the
    net, with its record of exchanges, is returned as it was.  The reply
    text is ["Loaded conversation: "] followed by the first argument, and
    the sender's session afterwards is a fresh one with exactly that
    conversation identity.  The update loop hands this reply, threaded to
    the command, to [bot.Send]. *)
Theorem resume_loads_conversation (h : handlers.Handler)
    (msg : tgbotapi.Message) (n : http.Net) (arg : string)
    (rest : list string) :
  strings_Fields (CommandArguments msg) = arg :: rest ->
  exists h',
    handlers.HandleStart h msg n =
      (tgbotapi.NewMessage (chatOf msg) ("Loaded conversation: " ++ arg),
       h', n) /\
    conversation.GetSession (handlers.convManager h') (senderOf msg) =
      Some (sessionFor arg) /\
    (IsCommand msg = true -> Command msg = "start" ->
     main.handleUpdate h (updateOf msg) n =
       (Some (threaded
                (tgbotapi.NewMessage (chatOf msg)
                   ("Loaded conversation: " ++ arg)) msg),
        h', n)).
Proof.
  intros Hargs. eexists. split; [apply (HandleStart_resume _ _ _ _ _ Hargs)|].
  split.
  - simpl. rewrite GetSession_Update.
    destruct (decide (senderOf msg = senderOf msg)); [reflexivity|done].
  - intros Hc Hs. rewrite (handleUpdate_start _ _ _ Hc Hs).
    rewrite (HandleStart_resume _ _ _ _ _ Hargs). reflexivity.
Qed.

End Exchanges.

(** ** Listing and configuration *)

Lemma append_cons (x : ascii) (a b : string) :
  String x a ++ b = String x (a ++ b).
Proof. reflexivity. Qed.

Lemma append_assoc (a b c : string) : (a ++ b) ++ c = a ++ (b ++ c).
Proof.
  induction a as [|x a IH]; [reflexivity|].
  now rewrite !append_cons, IH.
Qed.

Lemma append_empty_r (a : string) : a ++ "" = a.
Proof.
  induction a as [|x a IH]; [reflexivity|].
  now rewrite append_cons, IH.
Qed.

(** Writing the pieces to a builder one after the other yields what was
    there followed by the pieces in the order of the list. *)
Lemma builder_writes {A : Type} (f : A -> string) (l : list A)
    (written : string) :
  fold_left (fun response x => response ++ f x) l written =
    written ++ fold_right append "" (map f l).
Proof.
  revert written. induction l as [|x l IH]; intros written; simpl.
  - now rewrite append_empty_r.
  - rewrite IH. apply append_assoc.
Qed.

Section Listing.
Context {F : Foreign} {P : Platform} {J : api.JSON}.

Lemma listing_app (l1 l2 : list api.Conversation.t) :
  listing (l1 ++ l2) = listing l1 ++ listing l2.
Proof.
  unfold listing. induction l1 as [|c l1 IH]; simpl; [reflexivity|].
  rewrite IH. symmetry. apply append_assoc.
Qed.

Lemma HandleList_Ok (h : handlers.Handler) (msg : tgbotapi.Message)
    (n n' : http.Net) (conversations : list api.Conversation.t) :
  api.GetConversations (handlers.apiClient h) n =
    (api.Ok conversations, n') ->
  handlers.HandleList h msg n =
    (tgbotapi.NewMessage (chatOf msg)
       (match conversations with
        | [] => "No conversations found"
        | _ :: _ =>
            "Recent conversations:" ++ handlers.LF ++ handlers.LF ++
            listing conversations
        end), h, n').
Proof.
  intros Hget. unfold handlers.HandleList. rewrite Hget.
  destruct conversations as [|c l]; [reflexivity|].
  cbn [length Nat.eqb]. rewrite builder_writes.
  unfold listing. now rewrite !append_assoc.
Qed.

(** C8. When the backend returns a listing, the reply text is never
    empty.  For an empty listing it is ["No conversations found"].  For a
    non-empty one it is the heading followed by one block per conversation
    in the order of the listing, so that the block of the [i]-th
    conversation, made of its identity, its title and its formatted creation
    time, stands after the blocks of the conversations before it and before
    the blocks of those after it. *)
Theorem listing_reply (h : handlers.Handler) (msg : tgbotapi.Message)
    (n n' : http.Net) (conversations : list api.Conversation.t) :
  api.GetConversations (handlers.apiClient h) n =
    (api.Ok conversations, n') ->
  exists text,
    handlers.HandleList h msg n =
      (tgbotapi.NewMessage (chatOf msg) text, h, n') /\
    text <> "" /\
    (conversations = [] -> text = "No conversations found") /\
    (conversations <> [] ->
     text =
       "Recent conversations:" ++ handlers.LF ++ handlers.LF ++
       listing conversations /\
     forall (i : nat) (conv : api.Conversation.t),
       conversations !! i = Some conv ->
       text =
         ("Recent conversations:" ++ handlers.LF ++ handlers.LF ++
          listing (take i conversations)) ++
         ("ID: " ++ api.Conversation.ID conv ++ handlers.LF ++
          "Title: " ++ api.Conversation.Title conv ++ handlers.LF ++
          "Created: " ++
            time_Format (api.Conversation.CreatedAt conv)
              "2006-01-02 15:04:05" ++
          handlers.LF ++ handlers.LF) ++
         listing (drop (S i) conversations)).
Proof.
  intros Hget. rewrite (HandleList_Ok _ _ _ _ _ Hget).
  eexists; split; [reflexivity|].
  destruct conversations as [|c l].
  - split; [discriminate|]. split; [reflexivity|]. intros Hne; contradiction.
  - split; [discriminate|]. split; [discriminate|]. intros _.
    split; [reflexivity|]. intros i conv Hi.
    rewrite <- (take_drop_middle (c :: l) i conv Hi) at 1.
    rewrite listing_app.
    change (listing (conv :: drop (S i) (c :: l)))
      with (handlers.formatConversation conv ++
            listing (drop (S i) (c :: l))).
    unfold handlers.formatConversation.
    now rewrite !append_assoc.
Qed.

Lemma Getenv_other (env : gmap string string) (key key' value : string) :
  key <> key' -> Getenv (<[key := value]> env) key' = Getenv env key'.
Proof. intros Hne. unfold Getenv. now rewrite lookup_insert_ne. Qed.

Lemma Getenv_unset (env : gmap string string) (key : string) :
  env !! key = None -> Getenv env key = "".
Proof. intros Hnone. unfold Getenv. now rewrite Hnone. Qed.

(** C9. Without a token [main] stops with a fatal error before anything
    else happens; an unset base URL defaults to [http://localhost:8080]
    and an unset listing limit to 10.  The limit takes no part in the
    listing: the handler [main] builds is the same whatever the limit
    variable holds, and when the backend returns a non-empty listing the
    reply of that handler renders all of it, however many conversations
    the listing has. *)
Theorem config_defaults_limit_unused (env : gmap string string) (w : World) :
  (Getenv env "TELEGRAM_BOT_TOKEN" = "" ->
   main.startup env w = (main.Fatal "TELEGRAM_BOT_TOKEN is required", w)) /\
  (env !! "API_SERVER_URL" = None ->
   config.APIServerURL (config.New env) = "http://localhost:8080") /\
  (env !! "DEFAULT_CONVERSATION_LIMIT" = None ->
   config.DefaultConversationLimit (config.New env) = 10) /\
  (forall limit : string,
     handlerOf (main.startup (<["DEFAULT_CONVERSATION_LIMIT" := limit]> env) w).1
     = handlerOf (main.startup env w).1) /\
  (forall cfg handler w' msg n n' conversations,
     main.startup env w = (main.Running cfg handler, w') ->
     api.GetConversations (handlers.apiClient handler) n =
       (api.Ok conversations, n') ->
     conversations <> [] ->
     handlers.HandleList handler msg n =
       (tgbotapi.NewMessage (chatOf msg)
          ("Recent conversations:" ++ handlers.LF ++ handlers.LF ++
           listing conversations), handler, n')).
Proof.
  split; [|split; [|split; [|split]]].
  - intros Htoken. unfold main.startup, config.New; simpl.
    unfold config.getEnvOrDefault at 1. rewrite Htoken. reflexivity.
  - intros Hunset. unfold config.New, config.getEnvOrDefault; simpl.
    now rewrite (Getenv_unset _ _ Hunset).
  - intros Hunset. unfold config.New, config.getEnvIntOrDefault; simpl.
    now rewrite (Getenv_unset _ _ Hunset).
  - intros limit. unfold main.startup, config.New; simpl.
    unfold config.getEnvOrDefault. rewrite !Getenv_other by discriminate.
    destruct (String.eqb _ ""); [reflexivity|].
    destruct (NewBotAPI _ w) as [[e|] w1]; reflexivity.
  - intros cfg handler w' msg n n' conversations _ Hget Hne.
    rewrite (HandleList_Ok _ _ _ _ _ Hget).
    destruct conversations; [contradiction|reflexivity].
Qed.

End Listing.

(** ** User identities *)

Section Identity.
Context {F : Foreign} {P : Platform} {J : api.JSON}.

Lemma NewManager_anonymous : sessionsAnonymous conversation.NewManager.
Proof. apply map_Forall_empty. Qed.

Lemma StartConversation_anonymous (m : conversation.Manager) (u : Z)
    (c : string) :
  sessionsAnonymous m ->
  sessionsAnonymous (conversation.StartConversation m u c).
Proof. intros Hm. apply map_Forall_insert_2; [reflexivity|exact Hm]. Qed.

Lemma UpdateSession_anonymous (m : conversation.Manager) (u : Z)
    (s : option conversation.UserSession) :
  anonymous s -> sessionsAnonymous m ->
  sessionsAnonymous (conversation.UpdateSession m u s).
Proof. intros Hs Hm. apply map_Forall_insert_2; assumption. Qed.

Lemma ClearSession_anonymous (m : conversation.Manager) (u : Z) :
  sessionsAnonymous m -> sessionsAnonymous (conversation.ClearSession m u).
Proof. intros Hm. now apply map_Forall_delete. Qed.

(** What a reader gets from an anonymous store has no user identity. *)
Lemma GetSession_anonymous (m : conversation.Manager) (u : Z)
    (s : conversation.UserSession) :
  sessionsAnonymous m -> conversation.GetSession m u = Some s ->
  conversation.UserID s = "".
Proof.
  unfold conversation.GetSession. intros Hm Hget.
  destruct (conversation.sessions m !! u) as [p|] eqn:Hu; [|discriminate].
  subst p. exact (Hm u (Some s) Hu).
Qed.

(** The exchanges [SendMessage] starts for a request that names [u]. *)
Lemma SendMessage_sentBy (c : api.Client) (req : api.ChatRequest.t)
    (n : http.Net) (u : Z) :
  api.ChatRequest.UserID req = FormatInt10 u ->
  exists new,
    http.calls (api.SendMessage c req n).2 = (http.calls n ++ new)%list /\
    Forall (sentBy u) new.
Proof.
  intros Hu.
  destruct (SendMessage_calls c req n) as [Hsame|(jsonData & Hm & Hcalls)].
  - exists []. rewrite app_nil_r. split; [exact Hsame|constructor].
  - eexists. split; [exact Hcalls|].
    constructor; [|constructor]. exists req. split; assumption.
Qed.

Lemma GetTools_calls (c : api.Client) (n : http.Net) :
  http.calls (api.GetTools c n).2 =
    (http.calls n ++ [http.GET (api.baseURL c ++ "/tools")])%list.
Proof.
  unfold api.GetTools, api.Get.
  destruct (http_Get _ _ _) as [[e|resp] w]; [reflexivity|].
  destruct (negb _); [reflexivity|].
  destruct (api.Decode_Tools _); reflexivity.
Qed.

Lemma settled_idle (u : Z) (n : http.Net)
    (reply : tgbotapi.MessageConfig.t) (h : handlers.Handler) :
  sessionsAnonymous (handlers.convManager h) -> settled u n (reply, h, n).
Proof.
  intros Hm. split; [exact Hm|].
  exists []. simpl. rewrite app_nil_r. split; [reflexivity|constructor].
Qed.

Lemma HandleMessage_settled (h : handlers.Handler) (msg : tgbotapi.Message)
    (n : http.Net) :
  sessionsAnonymous (handlers.convManager h) ->
  settled (senderOf msg) n (handlers.HandleMessage h msg n).
Proof.
  intros Hm. unfold handlers.HandleMessage.
  pose proof (SendMessage_sentBy (handlers.apiClient h)
                (messageRequest h msg) n (senderOf msg) eq_refl) as Hcalls.
  change (api.SendMessage (handlers.apiClient h) _ n)
    with (api.SendMessage (handlers.apiClient h) (messageRequest h msg) n).
  destruct (api.SendMessage _ _ n) as [[resp|e] n']; simpl in Hcalls.
  - split; [|exact Hcalls]. simpl.
    destruct (String.eqb _ ""); [|exact Hm].
    now apply StartConversation_anonymous.
  - split; [exact Hm|exact Hcalls].
Qed.

Lemma HandleStart_settled (h : handlers.Handler) (msg : tgbotapi.Message)
    (n : http.Net) :
  sessionsAnonymous (handlers.convManager h) ->
  settled (senderOf msg) n (handlers.HandleStart h msg n).
Proof.
  intros Hm. unfold handlers.HandleStart.
  destruct (strings_Fields (CommandArguments msg)) as [|arg rest].
  - pose proof (SendMessage_sentBy (handlers.apiClient h)
                  (startRequest msg) n (senderOf msg) eq_refl) as Hcalls.
    change (api.SendMessage (handlers.apiClient h) _ n)
      with (api.SendMessage (handlers.apiClient h) (startRequest msg) n).
    destruct (api.SendMessage _ _ n) as [[resp|e] n']; simpl in Hcalls.
    + split; [|exact Hcalls]. now apply StartConversation_anonymous.
    + split; [exact Hm|exact Hcalls].
  - apply settled_idle. now apply UpdateSession_anonymous.
Qed.

Lemma HandleList_settled (h : handlers.Handler) (msg : tgbotapi.Message)
    (n : http.Net) :
  sessionsAnonymous (handlers.convManager h) ->
  settled (senderOf msg) n (handlers.HandleList h msg n).
Proof.
  intros Hm. unfold handlers.HandleList.
  pose proof (GetConversations_calls (handlers.apiClient h) n) as Hcalls.
  assert (Forall (sentBy (senderOf msg))
            [http.GET (api.baseURL (handlers.apiClient h) ++ "/conversations")])
    as Hget by (constructor; [exact I|constructor]).
  destruct (api.GetConversations _ n) as [[l|e] n']; simpl in Hcalls.
  - destruct (length l =? 0)%nat; (split; [exact Hm|eauto]).
  - split; [exact Hm|eauto].
Qed.

Lemma HandleServers_settled (h : handlers.Handler) (msg : tgbotapi.Message)
    (n : http.Net) :
  sessionsAnonymous (handlers.convManager h) ->
  settled (senderOf msg) n (handlers.HandleServers h msg n).
Proof.
  intros Hm. unfold handlers.HandleServers.
  pose proof (GetTools_calls (handlers.apiClient h) n) as Hcalls.
  assert (Forall (sentBy (senderOf msg))
            [http.GET (api.baseURL (handlers.apiClient h) ++ "/tools")])
    as Hget by (constructor; [exact I|constructor]).
  destruct (api.GetTools _ n) as [[t|e] n']; simpl in Hcalls;
    (split; [exact Hm|eauto]).
Qed.

(** What [HandleMessage] replies and sends depends on the store only
    through the conversation identity it shows for the sender: the stored
    user identity is never read. *)
Lemma conversationOf_Start (m : conversation.Manager) (u u' : Z)
    (c : string) :
  conversation.conversationOf (conversation.StartConversation m u c) u' =
    if decide (u = u') then c else conversation.conversationOf m u'.
Proof.
  unfold conversation.conversationOf. rewrite GetSession_Start.
  destruct (decide (u = u')); reflexivity.
Qed.

Lemma HandleMessage_ignores_stored_identity (h1 h2 : handlers.Handler)
    (msg : tgbotapi.Message) (n : http.Net) :
  handlers.apiClient h1 = handlers.apiClient h2 ->
  sameConversations (handlers.convManager h1) (handlers.convManager h2) ->
  (handlers.HandleMessage h1 msg n).1.1 =
    (handlers.HandleMessage h2 msg n).1.1 /\
  (handlers.HandleMessage h1 msg n).2 = (handlers.HandleMessage h2 msg n).2 /\
  sameConversations
    (handlers.convManager (handlers.HandleMessage h1 msg n).1.2)
    (handlers.convManager (handlers.HandleMessage h2 msg n).1.2).
Proof.
  intros Hclient Hsame. unfold handlers.HandleMessage.
  change (match conversation.GetSession (handlers.convManager h1)
                  (tgbotapi.ID (tgbotapi.From msg)) with
          | Some s => conversation.ConversationID s
          | None => ""
          end)
    with (conversation.conversationOf (handlers.convManager h1)
            (senderOf msg)).
  change (match conversation.GetSession (handlers.convManager h2)
                  (tgbotapi.ID (tgbotapi.From msg)) with
          | Some s => conversation.ConversationID s
          | None => ""
          end)
    with (conversation.conversationOf (handlers.convManager h2)
            (senderOf msg)).
  rewrite Hclient, (Hsame (senderOf msg)).
  destruct (api.SendMessage _ _ n) as [[resp|e] n']; simpl.
  - split; [reflexivity|]. split; [reflexivity|].
    destruct (String.eqb _ ""); [|exact Hsame].
    intros u. simpl. rewrite !conversationOf_Start.
    destruct (decide (_ = u)); [reflexivity|apply Hsame].
  - split; [reflexivity|]. split; [reflexivity|]. exact Hsame.
Qed.

(** One turn of the update loop keeps the store anonymous; the exchanges
    it starts are sent on behalf of the sender of the update's message. *)
Lemma handleUpdate_settled (h : handlers.Handler) (update : tgbotapi.Update)
    (n : http.Net) :
  sessionsAnonymous (handlers.convManager h) ->
  sessionsAnonymous (handlers.convManager (main.handleUpdate h update n).1.2)
  /\
  exists new,
    http.calls (main.handleUpdate h update n).2 = (http.calls n ++ new)%list /\
    Forall (fun c =>
              exists m,
                tgbotapi.Update_Message update = Some m /\
                sentBy (senderOf m) c) new.
Proof.
  intros Hm. unfold main.handleUpdate.
  destruct (tgbotapi.Update_Message update) as [m|].
  2:{ split; [exact Hm|]. exists []. simpl. rewrite app_nil_r.
      split; [reflexivity|constructor]. }
  assert (settled (senderOf m) n
            (if IsCommand m
             then
               if String.eqb (Command m) "start"
               then handlers.HandleStart h m n
               else if String.eqb (Command m) "list"
               then handlers.HandleList h m n
               else if String.eqb (Command m) "servers"
               then handlers.HandleServers h m n
               else (tgbotapi.NewMessage
                       (tgbotapi.Chat_ID (tgbotapi.Chat_ m))
                       "Unknown command", h, n)
             else handlers.HandleMessage h m n)) as Hs.
  { destruct (IsCommand m); [|now apply HandleMessage_settled].
    destruct (String.eqb _ "start"); [now apply HandleStart_settled|].
    destruct (String.eqb _ "list"); [now apply HandleList_settled|].
    destruct (String.eqb _ "servers"); [now apply HandleServers_settled|].
    now apply settled_idle. }
  cbv zeta.
  destruct (if IsCommand m then _ else _) as [[reply h'] n'].
  destruct Hs as (Hm' & new & Hcalls & Hnew). simpl in *.
  split; [exact Hm'|]. exists new. split; [exact Hcalls|].
  eapply Forall_impl; [exact Hnew|]. intros c Hc. exists m. now split.
Qed.

(** The store stays anonymous along the whole update loop. *)
Lemma loop_anonymous (updates : list tgbotapi.Update) (h : handlers.Handler)
    (n : http.Net) :
  sessionsAnonymous (handlers.convManager h) ->
  sessionsAnonymous (handlers.convManager (main.loop h updates n).1.2).
Proof.
  revert h n. induction updates as [|update updates IH]; intros h n Hm.
  - exact Hm.
  - simpl. destruct (handleUpdate_settled h update n Hm) as (Hm' & _).
    destruct (main.handleUpdate h update n) as [[sent h'] n'].
    specialize (IH h' n' Hm').
    destruct (main.loop h' updates n') as [[rest h''] n'']. exact IH.
Qed.

(** C10. The store [main] starts from holds no session with a user
    identity, and one turn of the update loop, whatever the update and
    whatever the backend does, keeps it so; every chat request posted
    during the turn carries the decimal rendering of the identity of the
    sender of the update's message, which is a function of the update
    alone.  Hence the store is anonymous after any run of the loop.  The
    stored user identity is never read: two handlers whose stores show
    every user the same conversation identity reply and send the same. *)
Theorem sessions_hold_no_user_identity :
  sessionsAnonymous conversation.NewManager /\
  (forall (h : handlers.Handler) (update : tgbotapi.Update) (n : http.Net),
     sessionsAnonymous (handlers.convManager h) ->
     sessionsAnonymous
       (handlers.convManager (main.handleUpdate h update n).1.2) /\
     (forall u s,
        conversation.GetSession
          (handlers.convManager (main.handleUpdate h update n).1.2) u
          = Some s ->
        conversation.UserID s = "") /\
     exists new,
       http.calls (main.handleUpdate h update n).2 =
         (http.calls n ++ new)%list /\
       Forall (fun c =>
                 exists m,
                   tgbotapi.Update_Message update = Some m /\
                   sentBy (senderOf m) c) new) /\
  (forall (c : api.Client) (updates : list tgbotapi.Update) (n : http.Net),
     sessionsAnonymous
       (handlers.convManager
          (main.loop (handlers.NewHandler c conversation.NewManager)
             updates n).1.2)) /\
  (forall (h1 h2 : handlers.Handler) (msg : tgbotapi.Message) (n : http.Net),
     handlers.apiClient h1 = handlers.apiClient h2 ->
     sameConversations (handlers.convManager h1) (handlers.convManager h2) ->
     (handlers.HandleMessage h1 msg n).1.1 =
       (handlers.HandleMessage h2 msg n).1.1 /\
     (handlers.HandleMessage h1 msg n).2 =
       (handlers.HandleMessage h2 msg n).2).
Proof.
  split; [exact NewManager_anonymous|]. split; [|split].
  - intros h update n Hm.
    destruct (handleUpdate_settled h update n Hm) as (Hm' & Hcalls).
    split; [exact Hm'|]. split; [|exact Hcalls].
    intros u s. now apply GetSession_anonymous.
  - intros c updates n. apply loop_anonymous. exact NewManager_anonymous.
  - intros h1 h2 msg n Hclient Hsame.
    destruct (HandleMessage_ignores_stored_identity h1 h2 msg n Hclient Hsame)
      as (Hreply & Hnet & _).
    split; assumption.
Qed.

End Identity.

(** * Further properties *)

(** ** The session store, operation by operation *)

Section StoreAlgebra.
Import conversation.

(** X1. [UpdateSession] followed by [GetSession] for the same user
    returns exactly the pointer that was stored, a [nil] pointer included;
    for any other user it returns what it returned before. *)
Theorem update_then_get (m : Manager) (u u' : Z) (s : option UserSession) :
  GetSession (UpdateSession m u s) u = s /\
  GetSession (UpdateSession m u s) u' =
    (if decide (u = u') then s else GetSession m u').
Proof.
  split; [|apply GetSession_Update].
  rewrite GetSession_Update. destruct (decide (u = u)); [reflexivity|done].
Qed.

(** X2. [StartConversation] and [ClearSession] for one user leave what
    [GetSession] returns for every other user as it was. *)
Theorem other_users_untouched (m : Manager) (u u' : Z) (c : string) :
  u <> u' ->
  GetSession (StartConversation m u c) u' = GetSession m u' /\
  GetSession (ClearSession m u) u' = GetSession m u'.
Proof.
  intros Hne. rewrite GetSession_Start, GetSession_Clear.
  destruct (decide (u = u')); [contradiction|]. split; reflexivity.
Qed.

Lemma other_users_untouched_witness :
  GetSession (StartConversation NewManager 7 "xyz") 8 =
    GetSession NewManager 8 /\
  GetSession (ClearSession NewManager 7) 8 = GetSession NewManager 8.
Proof. apply (other_users_untouched NewManager 7 8 "xyz"). lia. Defined.


(** X4. Writes for different users commute: the manager does not depend
    on the order in which two different users start, or in which one
    starts and the other is cleared. *)
Theorem writes_commute (m : Manager) (u1 u2 : Z) (c1 c2 : string) :
  u1 <> u2 ->
  StartConversation (StartConversation m u1 c1) u2 c2 =
    StartConversation (StartConversation m u2 c2) u1 c1 /\
  ClearSession (StartConversation m u1 c1) u2 =
    StartConversation (ClearSession m u2) u1 c1 /\
  ClearSession (ClearSession m u1) u2 = ClearSession (ClearSession m u2) u1.
Proof.
  intros Hne. repeat split; apply manager_eq; simpl.
  - apply insert_insert_ne. congruence.
  - apply delete_insert_ne. congruence.
  - apply delete_delete.
Qed.

Lemma writes_commute_witness :
  StartConversation (StartConversation NewManager 7 "xyz") 42 "abc123" =
    StartConversation (StartConversation NewManager 42 "abc123") 7 "xyz" /\
  ClearSession (StartConversation NewManager 7 "xyz") 42 =
    StartConversation (ClearSession NewManager 42) 7 "xyz" /\
  ClearSession (ClearSession NewManager 7) 42 =
    ClearSession (ClearSession NewManager 42) 7.
Proof. apply (writes_commute NewManager 7 42 "xyz" "abc123"). lia. Defined.

(** X5. [ClearSession] undoes [StartConversation]: clearing a user right
    after starting a conversation for them gives the manager that clearing
    alone would have given, which is the original manager when the user
    had no entry. *)
Theorem clear_undoes_start (m : Manager) (u : Z) (c : string) :
  ClearSession (StartConversation m u c) u = ClearSession m u /\
  (sessions m !! u = None -> ClearSession (StartConversation m u c) u = m).
Proof.
  split.
  - apply manager_eq; simpl. apply delete_insert_eq.
  - intros Hnone. apply manager_eq; simpl. now apply delete_insert_id.
Qed.

Lemma clear_undoes_start_witness :
  ClearSession (StartConversation NewManager 7 "xyz") 7 = NewManager.
Proof.
  destruct (clear_undoes_start NewManager 7 "xyz") as (_ & Hfresh).
  apply Hfresh. reflexivity.
Defined.

(** X6. Storing a [nil] pointer with [UpdateSession] reads like clearing:
    [GetSession] returns the same for every user as after [ClearSession].
    The two managers are nevertheless different maps, since the key stays
    present with a [nil] value. *)
Theorem nil_session_reads_as_cleared (m : Manager) (u : Z) :
  (forall u', GetSession (UpdateSession m u None) u' =
              GetSession (ClearSession m u) u') /\
  sessions (UpdateSession m u None) !! u = Some None /\
  sessions (ClearSession m u) !! u = None /\
  UpdateSession m u None <> ClearSession m u.
Proof.
  assert (sessions (UpdateSession m u None) !! u = Some None) as Hnil
    by (simpl; apply lookup_insert_eq).
  assert (sessions (ClearSession m u) !! u = None) as Hgone
    by (simpl; apply lookup_delete_eq).
  split; [|split; [exact Hnil|split; [exact Hgone|]]].
  - intros u'. rewrite GetSession_Update, GetSession_Clear.
    destruct (decide (u = u')); reflexivity.
  - intros Heq. rewrite Heq, Hgone in Hnil. discriminate.
Qed.

End StoreAlgebra.

(** ** The listing calls of the client *)

Section ClientListing.
Context {F : Foreign} {P : Platform} {J : api.JSON}.

(** X7. [GetConversations] starts exactly one exchange, a GET of the
    listing endpoint, whatever the outcome, and ends in exactly one of four
    ways: no response (transport error), a status other than 200 (protocol
    error carrying the status), a body that does not decode (decoding
    error), or status 200 and the decoded conversations in the order the
    decoder delivered them. *)
Theorem GetConversations_outcome (c : api.Client) (n : http.Net) :
  exists out w',
    http_Get (api.httpClient c) (api.baseURL c ++ "/conversations")
      (http.world n) = (out, w') /\
    (api.GetConversations c n).2 =
      {| http.world := w';
         http.calls :=
           (http.calls n ++
              [http.GET (api.baseURL c ++ "/conversations")])%list |} /\
    ((exists e,
        out = inl e /\
        (api.GetConversations c n).1 =
          api.Err (api.ErrTransport "error getting conversations" e))
     \/
     (exists resp,
        out = inr resp /\ http.StatusCode resp <> http.StatusOK /\
        (api.GetConversations c n).1 =
          api.Err (api.ErrStatus (http.StatusCode resp)))
     \/
     (exists resp e,
        out = inr resp /\ http.StatusCode resp = http.StatusOK /\
        api.Decode_Conversations (http.Body resp) = inl e /\
        (api.GetConversations c n).1 = api.Err (api.ErrDecode e))
     \/
     (exists resp conversations,
        out = inr resp /\ http.StatusCode resp = http.StatusOK /\
        api.Decode_Conversations (http.Body resp) = inr conversations /\
        (api.GetConversations c n).1 = api.Ok conversations)).
Proof.
  unfold api.GetConversations, api.Get.
  destruct (http_Get _ _ _) as [out w'] eqn:Hget.
  exists out, w'. split; [reflexivity|].
  destruct out as [e|resp]; [split; [reflexivity|eauto]|].
  destruct (Z.eqb_spec (http.StatusCode resp) http.StatusOK) as [Hok|Hbad];
    simpl.
  - destruct (api.Decode_Conversations (http.Body resp)) as [e|v] eqn:Hdec;
      (split; [reflexivity|eauto 10]).
  - split; [reflexivity|eauto 10].
Qed.

(** X8. [GetTools] starts exactly one exchange, a GET of the tools
    endpoint, whatever the outcome, and ends in exactly one of four ways:
    transport error, protocol error carrying a status other than 200,
    decoding error, or status 200 and the decoded tool map. *)
Theorem GetTools_outcome (c : api.Client) (n : http.Net) :
  exists out w',
    http_Get (api.httpClient c) (api.baseURL c ++ "/tools")
      (http.world n) = (out, w') /\
    (api.GetTools c n).2 =
      {| http.world := w';
         http.calls :=
           (http.calls n ++ [http.GET (api.baseURL c ++ "/tools")])%list |} /\
    ((exists e,
        out = inl e /\
        (api.GetTools c n).1 =
          api.Err (api.ErrTransport "error getting tools" e))
     \/
     (exists resp,
        out = inr resp /\ http.StatusCode resp <> http.StatusOK /\
        (api.GetTools c n).1 =
          api.Err (api.ErrStatus (http.StatusCode resp)))
     \/
     (exists resp e,
        out = inr resp /\ http.StatusCode resp = http.StatusOK /\
        api.Decode_Tools (http.Body resp) = inl e /\
        (api.GetTools c n).1 = api.Err (api.ErrDecode e))
     \/
     (exists resp tools,
        out = inr resp /\ http.StatusCode resp = http.StatusOK /\
        api.Decode_Tools (http.Body resp) = inr tools /\
        (api.GetTools c n).1 = api.Ok tools)).
Proof.
  unfold api.GetTools, api.Get.
  destruct (http_Get _ _ _) as [out w'] eqn:Hget.
  exists out, w'. split; [reflexivity|].
  destruct out as [e|resp]; [split; [reflexivity|eauto]|].
  destruct (Z.eqb_spec (http.StatusCode resp) http.StatusOK) as [Hok|Hbad];
    simpl.
  - destruct (api.Decode_Tools (http.Body resp)) as [e|v] eqn:Hdec;
      (split; [reflexivity|eauto 10]).
  - split; [reflexivity|eauto 10].
Qed.

(** A request that serialises is posted, once, to the chat endpoint. *)
Lemma SendMessage_posts (c : api.Client) (req : api.ChatRequest.t)
    (n : http.Net) (jsonData : string) :
  api.Marshal req = inr jsonData ->
  http.calls (api.SendMessage c req n).2 =
    (http.calls n ++
       [http.POST (api.baseURL c ++ "/chat") "application/json"
          jsonData])%list.
Proof.
  intros Hm. unfold api.SendMessage, api.Post. rewrite Hm.
  destruct (http_Post _ _ _ _ _) as [[e|resp] w]; [reflexivity|].
  destruct (negb _); [reflexivity|].
  destruct (api.Decode_ChatResponse _); reflexivity.
Qed.

End ClientListing.

(** ** Reading the configuration *)

Lemma digits_app (a b : string) (acc : Z) :
  digits (a ++ b) acc =
    match digits a acc with
    | Some v => digits b v
    | None => None
    end.
Proof.
  revert acc. induction a as [|c a IH]; intros acc; [reflexivity|].
  rewrite append_cons. simpl. destruct (digit c); [apply IH|reflexivity].
Qed.

Lemma digit_pretty_N_char (x : N) :
  (x < 10)%N -> digit (pretty_N_char x) = Some (Z.of_N x).
Proof.
  intros Hx.
  assert (x = 0 \/ x = 1 \/ x = 2 \/ x = 3 \/ x = 4 \/ x = 5 \/ x = 6 \/
          x = 7 \/ x = 8 \/ x = 9)%N as Hcases by lia.
  repeat (destruct Hcases as [->|Hcases]; [reflexivity|]).
  subst x. reflexivity.
Qed.

(** The digits [pretty_N_go] puts in front of [s] read back as [x]. *)
Lemma pretty_N_go_digits (x : N) (s : string) :
  exists d,
    pretty_N_go x s = d ++ s /\
    digits d 0 = Some (Z.of_N x) /\
    ((0 < x)%N -> d <> "").
Proof.
  revert s. induction (N.lt_wf_0 x) as [x _ IH]. intros s.
  destruct (N.eq_dec x 0%N) as [->|Hpos].
  { exists "". rewrite pretty_N_go_0. repeat split. intros H; lia. }
  assert (0 < x)%N as Hx by lia.
  rewrite (pretty_N_go_step x s Hx).
  destruct (IH (x `div` 10)%N (N.div_lt x 10 Hx eq_refl)
              (String (pretty_N_char (x `mod` 10)) s)) as (d & Hd & Hv & _).
  exists (d ++ String (pretty_N_char (x `mod` 10)) "").
  split; [|split].
  - rewrite Hd, append_assoc. reflexivity.
  - rewrite digits_app, Hv. simpl.
    rewrite digit_pretty_N_char by (apply N.mod_lt; lia).
    f_equal. rewrite (N.div_mod x 10) at 3 by lia. lia.
  - intros _. destruct d; discriminate.
Qed.

(** A numeral that starts with a digit has no sign for [Atoi] to strip. *)
Lemma Atoi_unsigned (c : ascii) (rest : string) (d v : Z) :
  digit c = Some d ->
  digits (String c rest) 0 = Some v ->
  Atoi (String c rest) =
    if ((- 2 ^ 63 <=? v) && (v <=? 2 ^ 63 - 1))%Z then Some v else None.
Proof.
  intros Hc Hv. unfold Atoi.
  assert (c <> "-"%char /\ c <> "+"%char) as [Hminus Hplus]
    by (split; intros ->; discriminate).
  destruct c as [[] [] [] [] [] [] [] []]; try contradiction;
    try discriminate; cbv zeta iota beta; rewrite Hv; reflexivity.
Qed.

Lemma Atoi_negative (c : ascii) (rest : string) (v : Z) :
  digits (String c rest) 0 = Some v ->
  Atoi (String "-" (String c rest)) =
    if ((- 2 ^ 63 <=? - v) && (- v <=? 2 ^ 63 - 1))%Z then Some (- v)
    else None.
Proof. intros Hv. unfold Atoi. cbv zeta iota beta. rewrite Hv. reflexivity. Qed.

Lemma pretty_positive_digits (p : positive) :
  exists c rest,
    pretty (N.pos p) = String c rest /\
    digits (String c rest) 0 = Some (Z.pos p).
Proof.
  unfold pretty, pretty_N.
  destruct (decide (N.pos p = 0%N)) as [|_]; [discriminate|].
  destruct (pretty_N_go_digits (N.pos p) "") as (d & Hd & Hv & Hne).
  rewrite append_empty_r in Hd. rewrite Hd.
  destruct d as [|c rest]; [exfalso; apply Hne; [lia|reflexivity]|].
  exists c, rest. split; [reflexivity|exact Hv].
Qed.

(** [Atoi] reads back what [FormatInt10] writes, within the range of
    [int]. *)
Lemma Atoi_FormatInt10 (v : Z) :
  - 2 ^ 63 <= v <= 2 ^ 63 - 1 ->
  Atoi (FormatInt10 v) = Some v /\ FormatInt10 v <> "".
Proof.
  intros Hrange. unfold FormatInt10, pretty, pretty_Z.
  destruct v as [|p|p].
  - split; [reflexivity|discriminate].
  - change (pretty p) with (pretty (N.pos p)).
    destruct (pretty_positive_digits p) as (c & rest & -> & Hv).
    split; [|discriminate].
    assert (exists d, digit c = Some d) as [d Hd].
    { simpl in Hv. destruct (digit c); [eauto|discriminate]. }
    rewrite (Atoi_unsigned c rest d _ Hd Hv).
    destruct (Z.leb_spec (- 2 ^ 63) (Z.pos p)); [|lia].
    destruct (Z.leb_spec (Z.pos p) (2 ^ 63 - 1)); [reflexivity|lia].
  - change (pretty p) with (pretty (N.pos p)).
    destruct (pretty_positive_digits p) as (c & rest & -> & Hv).
    split; [|discriminate].
    change ("-" +:+ String c rest) with (String "-" (String c rest)).
    rewrite (Atoi_negative c rest _ Hv).
    change (- Z.pos p) with (Z.neg p).
    destruct (Z.leb_spec (- 2 ^ 63) (Z.neg p)); [|lia].
    destruct (Z.leb_spec (Z.neg p) (2 ^ 63 - 1)); [reflexivity|lia].
Qed.

(** What [Atoi] accepts lies within the range of [int]. *)
Lemma Atoi_range (s : string) (v : Z) :
  Atoi s = Some v -> - 2 ^ 63 <= v <= 2 ^ 63 - 1.
Proof.
  unfold Atoi.
  destruct (match s with
            | String "-" rest => (true, rest)
            | String "+" rest => (false, rest)
            | _ => (false, s)
            end) as [neg body].
  destruct body as [|c rest]; [discriminate|].
  destruct (digits (String c rest) 0) as [d|]; [|discriminate].
  destruct (Z.leb_spec (- 2 ^ 63) (if neg then - d else d)); [|discriminate].
  destruct (Z.leb_spec (if neg then - d else d) (2 ^ 63 - 1));
    [|discriminate].
  intros [= <-]. lia.
Qed.

Lemma digits_reject (a : string) (c : ascii) (b : string) (acc : Z) :
  digit c = None -> digits (a ++ String c b) acc = None.
Proof.
  intros Hc. rewrite digits_app. destruct (digits a acc); [|reflexivity].
  simpl. now rewrite Hc.
Qed.

(** [Atoi] strips at most one leading character and decides on the
    rest. *)
Lemma Atoi_body (s : string) :
  exists (neg : bool) (body : string),
    (body = s \/ exists x, s = String x body) /\
    Atoi s =
      match body with
      | "" => None
      | String _ _ =>
          match digits body 0 with
          | Some v =>
              let i := if neg then - v else v in
              if ((- 2 ^ 63 <=? i) && (i <=? 2 ^ 63 - 1))%Z then Some i
              else None
          | None => None
          end
      end.
Proof.
  unfold Atoi. destruct s as [|x rest].
  { exists false, "". split; [left|]; reflexivity. }
  destruct x as [[] [] [] [] [] [] [] []];
    first
      [ exists true, rest; split; [right; eexists|]; reflexivity
      | exists false, rest; split; [right; eexists|]; reflexivity
      | eexists false, _; split; [left|]; reflexivity ].
Qed.

(** A numeral with a character that is no digit, after its first
    character, is not accepted by [Atoi]. *)
Lemma Atoi_reject (x : ascii) (a : string) (c : ascii) (b : string) :
  digit c = None -> Atoi (String x a ++ String c b) = None.
Proof.
  intros Hc.
  destruct (Atoi_body (String x a ++ String c b))
    as (neg & body & Hbody & ->).
  assert (digits body 0 = None) as Hnone.
  { destruct Hbody as [->|[y Hy]]; [now apply digits_reject|].
    rewrite append_cons in Hy. injection Hy as _ <-.
    now apply digits_reject. }
  rewrite Hnone. destruct body; reflexivity.
Qed.

Lemma config_New_token (env : gmap string string) :
  config.TelegramToken (config.New env) = "" ->
  Getenv env "TELEGRAM_BOT_TOKEN" = "".
Proof.
  unfold config.New, config.getEnvOrDefault; simpl.
  destruct (String.eqb_spec (Getenv env "TELEGRAM_BOT_TOKEN") "");
    simpl; trivial.
Qed.

Section Configuration.

(** X9. The listing limit reads back a decimal numeral: when
    [DEFAULT_CONVERSATION_LIMIT] holds the decimal rendering of an integer
    within the range of [int], negative ones included, that integer is the
    configured limit. *)
Theorem limit_reads_back (env : gmap string string) (v : Z) :
  env !! "DEFAULT_CONVERSATION_LIMIT" = Some (FormatInt10 v) ->
  - 2 ^ 63 <= v <= 2 ^ 63 - 1 ->
  config.DefaultConversationLimit (config.New env) = v.
Proof.
  intros Henv Hrange. destruct (Atoi_FormatInt10 v Hrange) as (Hread & Hne).
  unfold config.New, config.getEnvIntOrDefault, Getenv; simpl.
  rewrite Henv, Hread.
  destruct (String.eqb_spec (FormatInt10 v) ""); [contradiction|reflexivity].
Qed.

Lemma limit_reads_back_witness :
  config.DefaultConversationLimit
    (config.New (<["DEFAULT_CONVERSATION_LIMIT" := "-5"]> ∅)) = -5.
Proof.
  apply (limit_reads_back (<["DEFAULT_CONVERSATION_LIMIT" := "-5"]> ∅) (-5)).
  - vm_compute; reflexivity.
  - lia.
Defined.

(** X10. A listing limit that is no numeral is dropped without an error:
    when [DEFAULT_CONVERSATION_LIMIT] has, after its first character, a
    character that is not a decimal digit, the configured limit is the
    default 10. *)
Theorem limit_falls_back (env : gmap string string) (x c : ascii)
    (a b : string) :
  env !! "DEFAULT_CONVERSATION_LIMIT" = Some (String x a ++ String c b) ->
  digit c = None ->
  config.DefaultConversationLimit (config.New env) = 10.
Proof.
  intros Henv Hc.
  unfold config.New, config.getEnvIntOrDefault, Getenv; simpl.
  rewrite Henv, (Atoi_reject x a c b Hc).
  destruct (String.eqb _ ""); reflexivity.
Qed.

Lemma limit_falls_back_witness :
  config.DefaultConversationLimit
    (config.New (<["DEFAULT_CONVERSATION_LIMIT" := "1x"]> ∅)) = 10.
Proof.
  apply (limit_falls_back (<["DEFAULT_CONVERSATION_LIMIT" := "1x"]> ∅)
           "1" "x" "" "").
  - vm_compute; reflexivity.
  - vm_compute; reflexivity.
Defined.

(** X11. The token is taken from the environment as it is, empty when
    unset.  The base URL is never empty: it is the value of
    [API_SERVER_URL] when that is set to a non-empty string, and the
    default when it is set to the empty string, as when it is unset. *)
Theorem config_token_and_url (env : gmap string string) :
  config.TelegramToken (config.New env) = Getenv env "TELEGRAM_BOT_TOKEN" /\
  config.APIServerURL (config.New env) <> "" /\
  (forall url,
     env !! "API_SERVER_URL" = Some url -> url <> "" ->
     config.APIServerURL (config.New env) = url) /\
  (env !! "API_SERVER_URL" = Some "" ->
   config.APIServerURL (config.New env) = "http://localhost:8080").
Proof.
  unfold config.New, config.getEnvOrDefault; simpl. repeat split.
  - destruct (String.eqb_spec (Getenv env "TELEGRAM_BOT_TOKEN") "")
      as [->|]; reflexivity.
  - destruct (String.eqb_spec (Getenv env "API_SERVER_URL") "");
      [discriminate|assumption].
  - intros url Hset Hne. unfold Getenv. rewrite Hset.
    destruct (String.eqb_spec url ""); [contradiction|reflexivity].
  - intros Hset. unfold Getenv. rewrite Hset. reflexivity.
Qed.

Lemma config_token_and_url_witness :
  config.APIServerURL
    (config.New (<["API_SERVER_URL" := "http://api:9000"]> ∅)) =
    "http://api:9000" /\
  config.APIServerURL (config.New (<["API_SERVER_URL" := ""]> ∅)) =
    "http://localhost:8080".
Proof.
  split.
  - destruct (config_token_and_url
                (<["API_SERVER_URL" := "http://api:9000"]> ∅))
      as (_ & _ & Hset & _).
    apply Hset; [vm_compute; reflexivity|discriminate].
  - destruct (config_token_and_url (<["API_SERVER_URL" := ""]> ∅))
      as (_ & _ & _ & Hempty).
    apply Hempty. vm_compute; reflexivity.
Defined.

(** X12. The configuration reads three variables and nothing else:
    setting any other variable of the environment leaves it the same. *)
Theorem config_reads_three_variables (env : gmap string string)
    (key value : string) :
  key <> "TELEGRAM_BOT_TOKEN" -> key <> "API_SERVER_URL" ->
  key <> "DEFAULT_CONVERSATION_LIMIT" ->
  config.New (<[key := value]> env) = config.New env.
Proof.
  intros Ht Hu Hl.
  unfold config.New, config.getEnvOrDefault, config.getEnvIntOrDefault.
  now rewrite !Getenv_other by assumption.
Qed.

Lemma config_reads_three_variables_witness :
  config.New (<["HOME" := "/root"]> ∅) = config.New ∅.
Proof.
  apply (config_reads_three_variables ∅ "HOME" "/root"); discriminate.
Defined.

End Configuration.

(** ** What every update has in common *)

Section Dispatch.
Context {F : Foreign} {P : Platform} {J : api.JSON}.

Lemma handled_idle (h : handlers.Handler) (msg : tgbotapi.Message)
    (n : http.Net) (text : string) :
  handled h msg n (tgbotapi.NewMessage (chatOf msg) text, h, n).
Proof.
  repeat split. exists []. simpl. rewrite app_nil_r.
  split; [reflexivity|lia].
Qed.

Lemma SendMessage_at_most_one (c : api.Client) (req : api.ChatRequest.t)
    (n : http.Net) :
  exists new,
    http.calls (api.SendMessage c req n).2 = (http.calls n ++ new)%list /\
    (length new <= 1)%nat.
Proof.
  destruct (SendMessage_calls c req n) as [Hsame|(jsonData & _ & Hcalls)].
  - exists []. rewrite app_nil_r. split; [exact Hsame|simpl; lia].
  - eexists. split; [exact Hcalls|simpl; lia].
Qed.

Lemma HandleMessage_handled (h : handlers.Handler) (msg : tgbotapi.Message)
    (n : http.Net) :
  handled h msg n (handlers.HandleMessage h msg n).
Proof.
  unfold handlers.HandleMessage.
  pose proof (SendMessage_at_most_one (handlers.apiClient h)
                (messageRequest h msg) n) as Hcalls.
  change (api.SendMessage (handlers.apiClient h) _ n)
    with (api.SendMessage (handlers.apiClient h) (messageRequest h msg) n).
  destruct (api.SendMessage _ _ n) as [[resp|e] n']; simpl in Hcalls.
  - split; [reflexivity|]. split; [reflexivity|]. simpl.
    destruct (String.eqb _ ""); (split; [reflexivity|]);
      (split; [|exact Hcalls]); [|reflexivity].
    intros u Hu. simpl. rewrite GetSession_Start.
    destruct (decide (_ = u)) as [Heq|]; [|reflexivity].
    exfalso. apply Hu. symmetry. exact Heq.
  - repeat split. exact Hcalls.
Qed.

Lemma HandleStart_handled (h : handlers.Handler) (msg : tgbotapi.Message)
    (n : http.Net) :
  handled h msg n (handlers.HandleStart h msg n).
Proof.
  unfold handlers.HandleStart.
  destruct (strings_Fields (CommandArguments msg)) as [|arg rest].
  - pose proof (SendMessage_at_most_one (handlers.apiClient h)
                  (startRequest msg) n) as Hcalls.
    change (api.SendMessage (handlers.apiClient h) _ n)
      with (api.SendMessage (handlers.apiClient h) (startRequest msg) n).
    destruct (api.SendMessage _ _ n) as [[resp|e] n']; simpl in Hcalls.
    + split; [reflexivity|]. split; [reflexivity|].
      split; [reflexivity|]. split; [|exact Hcalls].
      intros u Hu. simpl. rewrite GetSession_Start.
      destruct (decide (_ = u)) as [Heq|]; [|reflexivity].
      exfalso. apply Hu. symmetry. exact Heq.
    + repeat split. exact Hcalls.
  - split; [reflexivity|]. split; [reflexivity|]. split; [reflexivity|].
    split.
    + intros u Hu. simpl. rewrite GetSession_Update.
      destruct (decide (_ = u)) as [Heq|]; [|reflexivity].
      exfalso. apply Hu. symmetry. exact Heq.
    + exists []. simpl. rewrite app_nil_r. split; [reflexivity|lia].
Qed.

Lemma HandleList_handled (h : handlers.Handler) (msg : tgbotapi.Message)
    (n : http.Net) :
  handled h msg n (handlers.HandleList h msg n).
Proof.
  unfold handlers.HandleList.
  pose proof (GetConversations_calls (handlers.apiClient h) n) as Hcalls.
  destruct (api.GetConversations _ n) as [[l|e] n']; simpl in Hcalls.
  - destruct (length l =? 0)%nat; repeat split;
      (eexists; split; [exact Hcalls|simpl; lia]).
  - repeat split. eexists; split; [exact Hcalls|simpl; lia].
Qed.

Lemma HandleServers_handled (h : handlers.Handler) (msg : tgbotapi.Message)
    (n : http.Net) :
  handled h msg n (handlers.HandleServers h msg n).
Proof.
  unfold handlers.HandleServers.
  pose proof (GetTools_calls (handlers.apiClient h) n) as Hcalls.
  destruct (api.GetTools _ n) as [[t|e] n']; simpl in Hcalls;
    repeat split; (eexists; split; [exact Hcalls|simpl; lia]).
Qed.

(** An update that carries a message is handled in one of the five ways,
    and the reply is threaded to the message. *)
Lemma handleUpdate_message (h : handlers.Handler) (update : tgbotapi.Update)
    (m : tgbotapi.Message) (n : http.Net) :
  tgbotapi.Update_Message update = Some m ->
  exists res,
    handled h m n res /\
    main.handleUpdate h update n = (Some (threaded res.1.1 m), res.1.2, res.2).
Proof.
  intros Hm. unfold main.handleUpdate. rewrite Hm.
  assert (handled h m n
            (if IsCommand m
             then
               if String.eqb (Command m) "start"
               then handlers.HandleStart h m n
               else if String.eqb (Command m) "list"
               then handlers.HandleList h m n
               else if String.eqb (Command m) "servers"
               then handlers.HandleServers h m n
               else (tgbotapi.NewMessage
                       (tgbotapi.Chat_ID (tgbotapi.Chat_ m))
                       "Unknown command", h, n)
             else handlers.HandleMessage h m n)) as Hs.
  { destruct (IsCommand m); [|apply HandleMessage_handled].
    destruct (String.eqb _ "start"); [apply HandleStart_handled|].
    destruct (String.eqb _ "list"); [apply HandleList_handled|].
    destruct (String.eqb _ "servers"); [apply HandleServers_handled|].
    apply handled_idle. }
  cbv zeta.
  destruct (if IsCommand m then _ else _) as [[reply h'] n'].
  exists (reply, h', n'). split; [exact Hs|reflexivity].
Qed.

(** X13. One turn of the update loop answers an update that carries a
    message with exactly one reply, sent to the chat of the message and
    threaded to the message, whatever the kind of message and whatever the
    backend does; an update without message is skipped: no reply, and the
    handler and the net are as they were. *)
Theorem one_reply_per_message (h : handlers.Handler)
    (update : tgbotapi.Update) (n : http.Net) :
  match tgbotapi.Update_Message update with
  | Some m =>
      exists reply,
        (main.handleUpdate h update n).1.1 = Some reply /\
        addressedTo reply = addressOf m
  | None => main.handleUpdate h update n = (None, h, n)
  end.
Proof.
  destruct (tgbotapi.Update_Message update) as [m|] eqn:Hm.
  - destruct (handleUpdate_message h update m n Hm)
      as (res & (Hchat & _) & ->).
    eexists. split; [reflexivity|].
    unfold addressedTo, addressOf; simpl. now rewrite Hchat.
  - unfold main.handleUpdate. now rewrite Hm.
Qed.

(** X14. One turn of the update loop starts at most one exchange with the
    backend and never replaces the client of the handler. *)
Theorem one_exchange_per_update (h : handlers.Handler)
    (update : tgbotapi.Update) (n : http.Net) :
  handlers.apiClient (main.handleUpdate h update n).1.2 =
    handlers.apiClient h /\
  exists new,
    http.calls (main.handleUpdate h update n).2 =
      (http.calls n ++ new)%list /\
    (length new <= 1)%nat.
Proof.
  destruct (tgbotapi.Update_Message update) as [m|] eqn:Hm.
  - destruct (handleUpdate_message h update m n Hm)
      as (res & (_ & _ & Hclient & _ & Hcalls) & ->).
    split; assumption.
  - unfold main.handleUpdate. rewrite Hm. split; [reflexivity|].
    exists []. simpl. rewrite app_nil_r. split; [reflexivity|lia].
Qed.

(** X15. One turn of the update loop touches no session but the
    sender's: for every user other than the sender of the update's message,
    [GetSession] returns afterwards what it returned before. *)
Theorem only_the_sender_changes (h : handlers.Handler)
    (update : tgbotapi.Update) (n : http.Net) (u : Z) :
  (forall m, tgbotapi.Update_Message update = Some m -> senderOf m <> u) ->
  conversation.GetSession
    (handlers.convManager (main.handleUpdate h update n).1.2) u =
    conversation.GetSession (handlers.convManager h) u.
Proof.
  intros Hother.
  destruct (tgbotapi.Update_Message update) as [m|] eqn:Hm.
  - destruct (handleUpdate_message h update m n Hm)
      as (res & (_ & _ & _ & Hframe & _) & ->).
    apply Hframe. intros ->. now apply (Hother m).
  - unfold main.handleUpdate. now rewrite Hm.
Qed.

(** X16. A command other than [start], [list] and [servers] gets the
    reply ["Unknown command"], threaded to the command; the backend is not
    contacted and the handler is as it was. *)
Theorem unknown_command (h : handlers.Handler) (m : tgbotapi.Message)
    (n : http.Net) :
  IsCommand m = true ->
  Command m <> "start" -> Command m <> "list" -> Command m <> "servers" ->
  main.handleUpdate h (updateOf m) n =
    (Some (threaded (tgbotapi.NewMessage (chatOf m) "Unknown command") m),
     h, n).
Proof.
  intros Hc Hs Hl Hv. unfold main.handleUpdate; simpl. rewrite Hc.
  destruct (String.eqb_spec (Command m) "start"); [contradiction|].
  destruct (String.eqb_spec (Command m) "list"); [contradiction|].
  destruct (String.eqb_spec (Command m) "servers"); [contradiction|].
  reflexivity.
Qed.

End Dispatch.

(** ** Runs of the update loop *)

Section Loop.
Context {F : Foreign} {P : Platform} {J : api.JSON}.

Lemma loop_cons (h : handlers.Handler) (update : tgbotapi.Update)
    (updates : list tgbotapi.Update) (n : http.Net) :
  main.loop h (update :: updates) n =
    let '(sent, h1, n1) := main.handleUpdate h update n in
    let '(rest, h2, n2) := main.loop h1 updates n1 in
    (match sent with Some msg => msg :: rest | None => rest end, h2, n2).
Proof. reflexivity. Qed.

Lemma messages_cons (update : tgbotapi.Update)
    (updates : list tgbotapi.Update) :
  omap tgbotapi.Update_Message (update :: updates) =
    match tgbotapi.Update_Message update with
    | Some m => m :: omap tgbotapi.Update_Message updates
    | None => omap tgbotapi.Update_Message updates
    end.
Proof. reflexivity. Qed.


(** X18. The replies of a run come one per update that carries a
    message, in the order of the updates, each sent to the chat of its
    message and threaded to it. *)
Theorem replies_follow_updates (h : handlers.Handler)
    (updates : list tgbotapi.Update) (n : http.Net) :
  map addressedTo (main.loop h updates n).1.1 =
    map addressOf (omap tgbotapi.Update_Message updates).
Proof.
  revert h n. induction updates as [|update updates IH]; intros h n.
  - reflexivity.
  - rewrite loop_cons, messages_cons.
    pose proof (one_reply := handleUpdate_message h update).
    destruct (tgbotapi.Update_Message update) as [m|] eqn:Hm.
    + destruct (one_reply m n eq_refl) as (res & (Hchat & _) & ->).
      specialize (IH res.1.2 res.2).
      destruct (main.loop res.1.2 updates res.2) as [[rest h2] n2].
      cbn [fst snd map] in *. rewrite IH. f_equal.
      unfold addressedTo, addressOf; simpl. now rewrite Hchat.
    + unfold main.handleUpdate. rewrite Hm.
      specialize (IH h n).
      destruct (main.loop h updates n) as [[rest h2] n2].
      cbn [fst snd] in *. exact IH.
Qed.

(** X19. A run starts at most as many exchanges with the backend as it
    has updates that carry a message. *)
Theorem exchanges_bounded_by_messages (h : handlers.Handler)
    (updates : list tgbotapi.Update) (n : http.Net) :
  exists new,
    http.calls (main.loop h updates n).2 = (http.calls n ++ new)%list /\
    (length new <= length (omap tgbotapi.Update_Message updates))%nat.
Proof.
  revert h n. induction updates as [|update updates IH]; intros h n.
  - exists []. simpl. rewrite app_nil_r. split; [reflexivity|lia].
  - rewrite loop_cons, messages_cons.
    pose proof (one_reply := handleUpdate_message h update).
    destruct (tgbotapi.Update_Message update) as [m|] eqn:Hm.
    + destruct (one_reply m n eq_refl)
        as (res & (_ & _ & _ & _ & new1 & Hcalls1 & Hlen1) & ->).
      destruct (IH res.1.2 res.2) as (new2 & Hcalls2 & Hlen2).
      destruct (main.loop res.1.2 updates res.2) as [[rest h2] n2].
      cbn [fst snd] in *.
      exists (new1 ++ new2)%list. rewrite Hcalls2, Hcalls1, app_assoc.
      split; [reflexivity|]. rewrite length_app. cbn [length]. lia.
    + unfold main.handleUpdate. rewrite Hm.
      destruct (IH h n) as (new & Hcalls & Hlen).
      destruct (main.loop h updates n) as [[rest h2] n2].
      cbn [fst snd] in *. exists new. split; assumption.
Qed.

Lemma conversationOf_GetSession (m1 m2 : conversation.Manager) (u : Z) :
  conversation.GetSession m1 u = conversation.GetSession m2 u ->
  conversation.conversationOf m1 u = conversation.conversationOf m2 u.
Proof. unfold conversation.conversationOf. now intros ->. Qed.

(** One turn keeps an established conversation unless the update is a
    [/start] command of its user. *)
Lemma handleUpdate_keeps (h : handlers.Handler) (update : tgbotapi.Update)
    (n : http.Net) (u : Z) :
  keepsConversationOf u update ->
  conversation.conversationOf (handlers.convManager h) u <> "" ->
  conversation.conversationOf
    (handlers.convManager (main.handleUpdate h update n).1.2) u =
    conversation.conversationOf (handlers.convManager h) u.
Proof.
  intros Hkeep Hset. unfold main.handleUpdate.
  destruct (tgbotapi.Update_Message update) as [m|] eqn:Hm; [|reflexivity].
  specialize (Hkeep m Hm).
  destruct (IsCommand m).
  - destruct (String.eqb_spec (Command m) "start") as [Hstart|_].
    + pose proof (HandleStart_handled h m n) as (_ & _ & _ & Hframe & _).
      destruct (handlers.HandleStart h m n) as [[reply h'] n']. simpl in *.
      apply conversationOf_GetSession, Hframe.
      intros ->. now apply Hkeep.
    + destruct (String.eqb (Command m) "list").
      { unfold handlers.HandleList.
        destruct (api.GetConversations _ n) as [[l|e] n'];
          [destruct (length l =? 0)%nat|]; reflexivity. }
      destruct (String.eqb (Command m) "servers"); [|reflexivity].
      unfold handlers.HandleServers.
      destruct (api.GetTools _ n) as [[t|e] n']; reflexivity.
  - destruct (decide (senderOf m = u)) as [<-|Hother].
    + unfold handlers.HandleMessage.
      change (match conversation.GetSession (handlers.convManager h)
                      (tgbotapi.ID (tgbotapi.From m)) with
              | Some s => conversation.ConversationID s
              | None => ""
              end)
        with (conversation.conversationOf (handlers.convManager h)
                (senderOf m)).
      destruct (api.SendMessage _ _ n) as [[resp|e] n']; [|reflexivity].
      destruct (String.eqb_spec
                  (conversation.conversationOf (handlers.convManager h)
                     (senderOf m)) ""); [contradiction|reflexivity].
    + pose proof (HandleMessage_handled h m n) as (_ & _ & _ & Hframe & _).
      destruct (handlers.HandleMessage h m n) as [[reply h'] n']. simpl in *.
      apply conversationOf_GetSession, Hframe. congruence.
Qed.

(** X20. An established conversation is only ever replaced by its user's
    own [/start]: along a run in which no update is a [/start] command of
    user [u], a non-empty conversation identity of [u] stays what it was,
    whatever the other users send and whatever the backend answers. *)
Theorem conversation_sticks (h : handlers.Handler)
    (updates : list tgbotapi.Update) (n : http.Net) (u : Z) :
  Forall (keepsConversationOf u) updates ->
  conversation.conversationOf (handlers.convManager h) u <> "" ->
  conversation.conversationOf
    (handlers.convManager (main.loop h updates n).1.2) u =
    conversation.conversationOf (handlers.convManager h) u.
Proof.
  revert h n. induction updates as [|update updates IH]; intros h n Hall Hset.
  - reflexivity.
  - inversion Hall as [|? ? Hkeep Hrest]; subst.
    rewrite loop_cons.
    pose proof (handleUpdate_keeps h update n u Hkeep Hset) as Hone.
    destruct (main.handleUpdate h update n) as [[sent h1] n1]. simpl in Hone.
    assert (conversation.conversationOf (handlers.convManager h1) u <> "")
      as Hset1 by (rewrite Hone; exact Hset).
    specialize (IH h1 n1 Hrest Hset1).
    destruct (main.loop h1 updates n1) as [[rest h2] n2]. simpl in *.
    now rewrite IH.
Qed.

End Loop.

(** ** Continuity of a conversation, listings, startup *)

Section Continuity.
Context {F : Foreign} {P : Platform} {J : api.JSON}.

(** The exchanges of [HandleMessage] are those of the one [SendMessage]
    it makes. *)
Lemma HandleMessage_net (h : handlers.Handler) (msg : tgbotapi.Message)
    (n : http.Net) :
  (handlers.HandleMessage h msg n).2 =
    (api.SendMessage (handlers.apiClient h) (messageRequest h msg) n).2.
Proof.
  unfold handlers.HandleMessage.
  change (api.SendMessage (handlers.apiClient h) _ n)
    with (api.SendMessage (handlers.apiClient h) (messageRequest h msg) n).
  now destruct (api.SendMessage _ _ n) as [[resp|e] n'].
Qed.

(** A text message of a user whose conversation identity in the store is
    [id] posts a request with that identity. *)
Lemma HandleMessage_posts (h : handlers.Handler) (msg : tgbotapi.Message)
    (n : http.Net) (id body : string) :
  conversation.conversationOf (handlers.convManager h) (senderOf msg) = id ->
  api.Marshal
    {| api.ChatRequest.Input := tgbotapi.Text msg;
       api.ChatRequest.ConversationID := id;
       api.ChatRequest.UserID := FormatInt10 (senderOf msg);
       api.ChatRequest.Title := "" |} = inr body ->
  http.calls (handlers.HandleMessage h msg n).2 =
    (http.calls n ++
       [http.POST (api.baseURL (handlers.apiClient h) ++ "/chat")
          "application/json" body])%list.
Proof.
  intros <- Hm. rewrite HandleMessage_net. now apply SendMessage_posts.
Qed.

(** X21. The conversation a successful [/start] opens is continued: after
    [/start] without argument has succeeded, the next text message of the
    same user posts, to the chat endpoint, the request that carries the
    text, the user and the conversation identity the backend returned. *)
Theorem start_is_continued (h : handlers.Handler)
    (msg next : tgbotapi.Message) (n n1 n2 : http.Net)
    (resp : api.ChatResponse.t) (body : string) :
  strings_Fields (CommandArguments msg) = [] ->
  api.SendMessage (handlers.apiClient h) (startRequest msg) n =
    (api.Ok resp, n1) ->
  senderOf next = senderOf msg ->
  api.Marshal
    {| api.ChatRequest.Input := tgbotapi.Text next;
       api.ChatRequest.ConversationID := api.ChatResponse.ConversationID resp;
       api.ChatRequest.UserID := FormatInt10 (senderOf next);
       api.ChatRequest.Title := "" |} = inr body ->
  http.calls
    (handlers.HandleMessage (handlers.HandleStart h msg n).1.2 next n2).2 =
    (http.calls n2 ++
       [http.POST (api.baseURL (handlers.apiClient h) ++ "/chat")
          "application/json" body])%list.
Proof.
  intros Hargs Hsend Hsame Hm.
  rewrite (HandleStart_Ok _ _ _ _ _ Hargs Hsend). simpl.
  apply (HandleMessage_posts
           (handlers.withManager h
              (conversation.StartConversation (handlers.convManager h)
                 (senderOf msg) (api.ChatResponse.ConversationID resp)))
           next n2 (api.ChatResponse.ConversationID resp) body);
    [|exact Hm].
  simpl. rewrite conversationOf_Start, Hsame.
  destruct (decide (senderOf msg = senderOf msg)); [reflexivity|done].
Qed.

(** X22. A resumed conversation is continued without any check: after
    [/start] with an argument, the next text message of the same user
    posts the request that carries that argument as conversation
    identity, whatever the store held before. *)
Theorem resume_is_continued (h : handlers.Handler)
    (msg next : tgbotapi.Message) (n n2 : http.Net) (arg : string)
    (rest : list string) (body : string) :
  strings_Fields (CommandArguments msg) = arg :: rest ->
  senderOf next = senderOf msg ->
  api.Marshal
    {| api.ChatRequest.Input := tgbotapi.Text next;
       api.ChatRequest.ConversationID := arg;
       api.ChatRequest.UserID := FormatInt10 (senderOf next);
       api.ChatRequest.Title := "" |} = inr body ->
  http.calls
    (handlers.HandleMessage (handlers.HandleStart h msg n).1.2 next n2).2 =
    (http.calls n2 ++
       [http.POST (api.baseURL (handlers.apiClient h) ++ "/chat")
          "application/json" body])%list.
Proof.
  intros Hargs Hsame Hm.
  rewrite (HandleStart_resume _ _ _ _ _ Hargs). simpl.
  apply (HandleMessage_posts
           (handlers.withManager h
              (conversation.UpdateSession (handlers.convManager h)
                 (senderOf msg) (Some (sessionFor arg))))
           next n2 arg body); [|exact Hm].
  unfold conversation.conversationOf. simpl.
  rewrite GetSession_Update, Hsame.
  destruct (decide (senderOf msg = senderOf msg)); [reflexivity|done].
Qed.

(** X23. The conversation a first text message opens is continued: when
    a user without conversation identity sends a text message and the
    exchange succeeds, the next text message of the same user posts the
    request that carries the conversation identity the backend returned. *)
Theorem first_message_is_continued (h : handlers.Handler)
    (msg next : tgbotapi.Message) (n n1 n2 : http.Net)
    (resp : api.ChatResponse.t) (body : string) :
  conversation.conversationOf (handlers.convManager h) (senderOf msg) = "" ->
  api.SendMessage (handlers.apiClient h) (messageRequest h msg) n =
    (api.Ok resp, n1) ->
  senderOf next = senderOf msg ->
  api.Marshal
    {| api.ChatRequest.Input := tgbotapi.Text next;
       api.ChatRequest.ConversationID := api.ChatResponse.ConversationID resp;
       api.ChatRequest.UserID := FormatInt10 (senderOf next);
       api.ChatRequest.Title := "" |} = inr body ->
  http.calls
    (handlers.HandleMessage (handlers.HandleMessage h msg n).1.2 next n2).2 =
    (http.calls n2 ++
       [http.POST (api.baseURL (handlers.apiClient h) ++ "/chat")
          "application/json" body])%list.
Proof.
  intros Hnone Hsend Hsame Hm.
  rewrite (HandleMessage_Ok _ _ _ _ _ Hsend), Hnone. simpl.
  apply (HandleMessage_posts
           (handlers.withManager h
              (conversation.StartConversation (handlers.convManager h)
                 (senderOf msg) (api.ChatResponse.ConversationID resp)))
           next n2 (api.ChatResponse.ConversationID resp) body);
    [|exact Hm].
  simpl. rewrite conversationOf_Start, Hsame.
  destruct (decide (senderOf msg = senderOf msg)); [reflexivity|done].
Qed.

(** X24. [HandleList] never changes the handler, always starts exactly
    one exchange, the GET of the listing endpoint, and never replies with
    an empty text; when the call fails the reply is the fixed text
    ["Error retrieving conversations"]. *)
Theorem HandleList_reads_only (h : handlers.Handler)
    (msg : tgbotapi.Message) (n : http.Net) :
  (handlers.HandleList h msg n).1.2 = h /\
  http.calls (handlers.HandleList h msg n).2 =
    (http.calls n ++
       [http.GET (api.baseURL (handlers.apiClient h) ++ "/conversations")])%list
  /\
  tgbotapi.MessageConfig.Text (handlers.HandleList h msg n).1.1 <> "" /\
  match (api.GetConversations (handlers.apiClient h) n).1 with
  | api.Err _ =>
      tgbotapi.MessageConfig.Text (handlers.HandleList h msg n).1.1 =
        "Error retrieving conversations"
  | api.Ok _ => True
  end.
Proof.
  pose proof (GetConversations_calls (handlers.apiClient h) n) as Hcalls.
  unfold handlers.HandleList.
  destruct (api.GetConversations _ n) as [[l|e] n']; simpl in Hcalls.
  - destruct l as [|c l]; simpl.
    + repeat split; [exact Hcalls|discriminate].
    + repeat split; [exact Hcalls|].
      rewrite builder_writes. discriminate.
  - simpl. repeat split; [exact Hcalls|discriminate].
Qed.

(** X25. [HandleServers] never changes the handler, always starts exactly
    one exchange, the GET of the tools endpoint, and never replies with an
    empty text: the reply is ["Available tools: "] followed by the
    rendering of the tool map, or the fixed text
    ["Error retrieving server information"] when the call fails. *)
Theorem HandleServers_reads_only (h : handlers.Handler)
    (msg : tgbotapi.Message) (n : http.Net) :
  (handlers.HandleServers h msg n).1.2 = h /\
  http.calls (handlers.HandleServers h msg n).2 =
    (http.calls n ++
       [http.GET (api.baseURL (handlers.apiClient h) ++ "/tools")])%list /\
  tgbotapi.MessageConfig.Text (handlers.HandleServers h msg n).1.1 <> "" /\
  tgbotapi.MessageConfig.Text (handlers.HandleServers h msg n).1.1 =
    match (api.GetTools (handlers.apiClient h) n).1 with
    | api.Ok tools => "Available tools: " ++ fmt_plus_v tools
    | api.Err _ => "Error retrieving server information"
    end.
Proof.
  pose proof (GetTools_calls (handlers.apiClient h) n) as Hcalls.
  unfold handlers.HandleServers.
  destruct (api.GetTools _ n) as [[t|e] n']; simpl in *;
    repeat split; solve [exact Hcalls|discriminate].
Qed.

(** X26. [main] reaches the update loop only with a non-empty token and
    a bot that could be created, and then with the configuration read from
    the environment and a handler whose client points at the configured
    base URL with a timeout of thirty seconds and whose store is empty.
    Otherwise it stops with one of its two fatal messages, and without a
    token it does so before the outside world is touched. *)
Theorem startup_outcome (env : gmap string string) (w : World) :
  match (main.startup env w).1 with
  | main.Running cfg handler =>
      cfg = config.New env /\
      config.TelegramToken cfg <> "" /\
      (NewBotAPI (config.TelegramToken cfg) w).1 = None /\
      (main.startup env w).2 = (NewBotAPI (config.TelegramToken cfg) w).2 /\
      api.baseURL (handlers.apiClient handler) = config.APIServerURL cfg /\
      http.Timeout (api.httpClient (handlers.apiClient handler)) =
        30 * api.Second /\
      forall u, conversation.GetSession (handlers.convManager handler) u = None
  | main.Fatal msg =>
      (msg = "TELEGRAM_BOT_TOKEN is required" /\
       Getenv env "TELEGRAM_BOT_TOKEN" = "" /\
       (main.startup env w).2 = w)
      \/
      (exists e,
         msg = "Error creating bot: " ++ e /\
         (NewBotAPI (config.TelegramToken (config.New env)) w).1 = Some e)
  end.
Proof.
  unfold main.startup.
  destruct (String.eqb_spec (config.TelegramToken (config.New env)) "")
    as [Hempty|Htoken].
  - left. split; [reflexivity|]. split; [|reflexivity].
    now apply config_New_token.
  - destruct (NewBotAPI _ w) as [[e|] w1] eqn:Hbot; simpl.
    + right. exists e. split; reflexivity.
    + change (config.getEnvOrDefault env "TELEGRAM_BOT_TOKEN" "")
        with (config.TelegramToken (config.New env)).
      rewrite Hbot. repeat split; assumption.
Qed.

End Continuity.

(** ** The properties at work on the scripted backend *)

Import scripted.

(** A first text message of user 42 opens the conversation the backend
    names; a text message of user 7, who resumed [xyz], leaves the handler
    as it was although the backend names another conversation. *)
Lemma freeform_success_witness :
  (exists h',
     handlers.HandleMessage handler (text 42 "hello")
       (net [inr (200, hi_abc123)]) =
       (tgbotapi.NewMessage 42 "hi", h',
        posted (marshal (messageRequest handler (text 42 "hello")))) /\
     conversation.GetSession (handlers.convManager h') 42 =
       Some (sessionFor "abc123")) /\
  (exists h',
     handlers.HandleMessage resumed (text 7 "hello")
       (net [inr (200, hi_abc123)]) =
       (tgbotapi.NewMessage 7 "hi", h',
        posted (marshal (messageRequest resumed (text 7 "hello")))) /\
     h' = resumed).
Proof.
  split.
  - assert (api.SendMessage (handlers.apiClient handler)
              (messageRequest handler (text 42 "hello"))
              (net [inr (200, hi_abc123)]) =
            (api.Ok hi,
             posted (marshal (messageRequest handler (text 42 "hello")))))
      as Hsend by (vm_compute; reflexivity).
    destruct (freeform_success _ _ _ _ _ Hsend) as (h' & Hrun & _ & Hnew & _).
    exists h'. split; [exact Hrun|]. apply Hnew. vm_compute; reflexivity.
  - assert (api.SendMessage (handlers.apiClient resumed)
              (messageRequest resumed (text 7 "hello"))
              (net [inr (200, hi_abc123)]) =
            (api.Ok hi,
             posted (marshal (messageRequest resumed (text 7 "hello")))))
      as Hsend by (vm_compute; reflexivity).
    destruct (freeform_success _ _ _ _ _ Hsend) as (h' & Hrun & Hkeep & _).
    exists h'. split; [exact Hrun|]. apply Hkeep. vm_compute. discriminate.
Defined.

(** The scenario of user 42: the backend answers [/start] with output
    [hi] and conversation [abc123]. *)
Lemma new_conversation_success_witness :
  exists h',
    handlers.HandleStart handler (slash 42 "start" "")
      (net [inr (200, hi_abc123)]) =
      (tgbotapi.NewMessage 42 "hi", h',
       posted (marshal (startRequest (slash 42 "start" "")))) /\
    conversation.GetSession (handlers.convManager h') 42 =
      Some (sessionFor "abc123") /\
    conversation.conversationOf (handlers.convManager h') 42 = "abc123".
Proof.
  assert (strings_Fields (CommandArguments (slash 42 "start" "")) = [])
    as Hargs by (vm_compute; reflexivity).
  assert (api.SendMessage (handlers.apiClient handler)
            (startRequest (slash 42 "start" ""))
            (net [inr (200, hi_abc123)]) =
          (api.Ok hi, posted (marshal (startRequest (slash 42 "start" "")))))
    as Hsend by (vm_compute; reflexivity).
  exact (new_conversation_success _ _ _ _ _ Hargs Hsend).
Defined.

(** The backend answers with status 500: user 7 keeps the resumed
    conversation, and a [/start] of user 42 leaves the store empty. *)
Lemma exchange_failure_witness :
  handlers.HandleMessage resumed (text 7 "hello")
    (net [inr (500, ChatJSON "")]) =
    (tgbotapi.NewMessage 7 "Error processing message", resumed,
     posted (marshal (messageRequest resumed (text 7 "hello")))) /\
  handlers.HandleStart handler (slash 42 "start" "")
    (net [inr (500, ChatJSON "")]) =
    (tgbotapi.NewMessage 42 "Error starting new conversation", handler,
     posted (marshal (startRequest (slash 42 "start" "")))) /\
  (exists n',
     handlers.HandleMessage resumed (text 7 "hello")
       (net [inr (500, ChatJSON "")]) =
       (tgbotapi.NewMessage 7 "Error processing message", resumed, n')).
Proof.
  split; [|split].
  - destruct (exchange_failure resumed (text 7 "hello")
                (net [inr (500, ChatJSON "")])) as (Htext & _ & _).
    apply (Htext (api.ErrStatus 500)). vm_compute; reflexivity.
  - destruct (exchange_failure handler (slash 42 "start" "")
                (net [inr (500, ChatJSON "")])) as (_ & Hstart & _).
    apply (Hstart (api.ErrStatus 500)); vm_compute; reflexivity.
  - destruct (exchange_failure resumed (text 7 "hello")
                (net [inr (500, ChatJSON "")])) as (_ & _ & Hstatus).
    apply (Hstatus (marshal (messageRequest resumed (text 7 "hello")))
             (response 500 (ChatJSON "")) []).
    + vm_compute; reflexivity.
    + vm_compute; reflexivity.
    + vm_compute; discriminate.
Defined.

(** The scenario of user 7: [/start xyz]. *)
Lemma resume_loads_conversation_witness :
  exists h',
    handlers.HandleStart handler (slash 7 "start" "xyz") (net []) =
      (tgbotapi.NewMessage 7 "Loaded conversation: xyz", h', net []) /\
    conversation.GetSession (handlers.convManager h') 7 =
      Some (sessionFor "xyz") /\
    main.handleUpdate handler (updateOf (slash 7 "start" "xyz")) (net []) =
      (Some (threaded (tgbotapi.NewMessage 7 "Loaded conversation: xyz")
               (slash 7 "start" "xyz")), h', net []).
Proof.
  assert (strings_Fields (CommandArguments (slash 7 "start" "xyz")) =
          ["xyz"]) as Hargs by (vm_compute; reflexivity).
  destruct (resume_loads_conversation handler _ (net []) _ _ Hargs)
    as (h' & Hrun & Hget & Hloop).
  exists h'. split; [exact Hrun|]. split; [exact Hget|].
  apply Hloop; vm_compute; reflexivity.
Defined.

(** An empty listing and a listing of two conversations. *)
Lemma listing_reply_witness :
  (exists text,
     handlers.HandleList handler (slash 42 "list" "")
       (net [inr (200, ListingJSON [])]) =
       (tgbotapi.NewMessage 42 text, handler, fetched) /\
     text = "No conversations found") /\
  (exists text,
     handlers.HandleList handler (slash 42 "list" "")
       (net [inr (200, two)]) =
       (tgbotapi.NewMessage 42 text, handler, fetched) /\
     text =
       "Recent conversations:" ++ handlers.LF ++ handlers.LF ++
       "ID: c1" ++ handlers.LF ++ "Title: First" ++ handlers.LF ++
       "Created: 2024-01-02 03:04:05" ++ handlers.LF ++ handlers.LF ++
       "ID: c0" ++ handlers.LF ++ "Title: Zero" ++ handlers.LF ++
       "Created: 2023-01-02 03:04:05" ++ handlers.LF ++ handlers.LF).
Proof.
  split.
  - assert (api.GetConversations (handlers.apiClient handler)
              (net [inr (200, ListingJSON [])]) = (api.Ok [], fetched))
      as Hget by (vm_compute; reflexivity).
    destruct (listing_reply handler (slash 42 "list" "") _ _ _ Hget)
      as (text & Hrun & _ & Hempty & _).
    exists text. split; [exact Hrun|]. apply Hempty. reflexivity.
  - assert (api.GetConversations (handlers.apiClient handler)
              (net [inr (200, two)]) =
            (api.Ok [summary ("c1", "First", "2024-01-02 03:04:05");
                     summary ("c0", "Zero", "2023-01-02 03:04:05")],
             fetched))
      as Hget by (vm_compute; reflexivity).
    destruct (listing_reply handler (slash 42 "list" "") _ _ _ Hget)
      as (text & Hrun & _ & _ & Hfull).
    exists text. split; [exact Hrun|].
    destruct Hfull as (Htext & _); [discriminate|].
    rewrite Htext. vm_compute; reflexivity.
Defined.

(** No token: fatal.  Nothing set: the defaults.  A limit of one and a
    backend that lists two conversations: both are rendered. *)
Lemma config_defaults_limit_unused_witness :
  main.startup (F := foreign) ∅ offline =
    (main.Fatal "TELEGRAM_BOT_TOKEN is required", offline) /\
  config.APIServerURL (config.New ∅) = "http://localhost:8080" /\
  config.DefaultConversationLimit (config.New ∅) = 10 /\
  config.DefaultConversationLimit (config.New environment) = 1 /\
  handlers.HandleList handler (slash 42 "list" "") (net [inr (200, two)]) =
    (tgbotapi.NewMessage 42
       ("Recent conversations:" ++ handlers.LF ++ handlers.LF ++
        listing [summary ("c1", "First", "2024-01-02 03:04:05");
                 summary ("c0", "Zero", "2023-01-02 03:04:05")]),
     handler, fetched).
Proof.
  destruct (config_defaults_limit_unused (F := foreign) ∅ offline)
    as (Hfatal & Hurl & Hlimit & _).
  split; [apply Hfatal; reflexivity|].
  split; [apply Hurl; reflexivity|].
  split; [apply Hlimit; reflexivity|].
  split; [vm_compute; reflexivity|].
  destruct (config_defaults_limit_unused (F := foreign) environment offline)
    as (_ & _ & _ & _ & Hall).
  apply (Hall (config.New environment) handler offline).
  - vm_compute; reflexivity.
  - vm_compute; reflexivity.
  - discriminate.
Defined.

(** A first text message of user 42, handled from the store [main] starts
    with. *)
Lemma sessions_hold_no_user_identity_witness :
  sessionsAnonymous
    (handlers.convManager
       (main.handleUpdate handler (updateOf (text 42 "hello"))
          (net [inr (200, hi_abc123)])).1.2) /\
  (forall s,
     conversation.GetSession
       (handlers.convManager
          (main.handleUpdate handler (updateOf (text 42 "hello"))
             (net [inr (200, hi_abc123)])).1.2) 42 = Some s ->
     conversation.UserID s = "").
Proof.
  destruct (sessions_hold_no_user_identity
              (F := foreign) (P := platform) (J := json))
    as (Hstart & Hstep & _).
  destruct (Hstep handler (updateOf (text 42 "hello"))
              (net [inr (200, hi_abc123)]) Hstart) as (Hinv & Hget & _).
  split; [exact Hinv|]. intros s. apply Hget.
Defined.

(** ** The further properties at work on the scripted backend *)

(** User 42 sends a first text message: the resumed conversation of
    user 7 is still there. *)
Lemma only_the_sender_changes_witness :
  conversation.GetSession
    (handlers.convManager
       (main.handleUpdate resumed (updateOf (text 42 "hello"))
          (net [inr (200, hi_abc123)])).1.2) 7 =
    Some (sessionFor "xyz").
Proof.
  rewrite (only_the_sender_changes resumed (updateOf (text 42 "hello"))
             (net [inr (200, hi_abc123)]) 7).
  - vm_compute; reflexivity.
  - intros m [= <-]. vm_compute. discriminate.
Defined.

(** [/help] is no command of the bot. *)
Lemma unknown_command_witness :
  main.handleUpdate resumed (updateOf (slash 42 "help" "")) (net []) =
    (Some (threaded (tgbotapi.NewMessage 42 "Unknown command")
             (slash 42 "help" "")), resumed, net []).
Proof.
  apply (unknown_command resumed (slash 42 "help" "") (net []));
    vm_compute; first [reflexivity|discriminate].
Defined.

(** User 42 opens a conversation and user 7 sends two text messages, one
    of which fails: the conversation of user 7 is still [xyz]. *)
Lemma conversation_sticks_witness :
  conversation.conversationOf
    (handlers.convManager
       (main.loop resumed
          [updateOf (text 42 "hello"); updateOf (text 7 "one");
           updateOf (text 7 "two")]
          (net [inr (200, hi_abc123); inr (500, ChatJSON "");
                inr (200, hi_abc123)])).1.2) 7 = "xyz".
Proof.
  rewrite (conversation_sticks resumed
             [updateOf (text 42 "hello"); updateOf (text 7 "one");
              updateOf (text 7 "two")]
             (net [inr (200, hi_abc123); inr (500, ChatJSON "");
                   inr (200, hi_abc123)]) 7).
  - vm_compute; reflexivity.
  - repeat constructor; intros m [= <-] Hcommand; vm_compute in Hcommand;
      discriminate.
  - vm_compute. discriminate.
Defined.

(** After the scenario of user 42, the next text message of user 42
    carries [abc123]. *)
Lemma start_is_continued_witness :
  http.calls
    (handlers.HandleMessage
       (handlers.HandleStart handler (slash 42 "start" "")
          (net [inr (200, hi_abc123)])).1.2
       (text 42 "again") (net [])).2 =
    [http.POST "http://localhost:8080/chat" "application/json"
       (marshal
          {| api.ChatRequest.Input := "again";
             api.ChatRequest.ConversationID := "abc123";
             api.ChatRequest.UserID := "42";
             api.ChatRequest.Title := "" |})].
Proof.
  apply (start_is_continued handler (slash 42 "start" "") (text 42 "again")
           (net [inr (200, hi_abc123)])
           (posted (marshal (startRequest (slash 42 "start" ""))))
           (net []) hi);
    vm_compute; reflexivity.
Defined.

(** After the scenario of user 7, the next text message of user 7
    carries [xyz]. *)
Lemma resume_is_continued_witness :
  http.calls
    (handlers.HandleMessage
       (handlers.HandleStart handler (slash 7 "start" "xyz") (net [])).1.2
       (text 7 "again") (net [])).2 =
    [http.POST "http://localhost:8080/chat" "application/json"
       (marshal
          {| api.ChatRequest.Input := "again";
             api.ChatRequest.ConversationID := "xyz";
             api.ChatRequest.UserID := "7";
             api.ChatRequest.Title := "" |})].
Proof.
  apply (resume_is_continued handler (slash 7 "start" "xyz") (text 7 "again")
           (net []) (net []) "xyz" []);
    vm_compute; reflexivity.
Defined.

(** A first text message of user 42 is answered with [abc123]; the next
    one carries it. *)
Lemma first_message_is_continued_witness :
  http.calls
    (handlers.HandleMessage
       (handlers.HandleMessage handler (text 42 "hello")
          (net [inr (200, hi_abc123)])).1.2
       (text 42 "again") (net [])).2 =
    [http.POST "http://localhost:8080/chat" "application/json"
       (marshal
          {| api.ChatRequest.Input := "again";
             api.ChatRequest.ConversationID := "abc123";
             api.ChatRequest.UserID := "42";
             api.ChatRequest.Title := "" |})].
Proof.
  apply (first_message_is_continued handler (text 42 "hello")
           (text 42 "again") (net [inr (200, hi_abc123)])
           (posted (marshal (messageRequest handler (text 42 "hello"))))
           (net []) hi);
    vm_compute; reflexivity.
Defined.
